(** * RFC 7807 problem details: error mapping and format negotiation

    A shallow embedding of the core of [fastapi/responses_rfc7807.py]
    (JSON Pointer encoder, validation error mapper, the two pydantic models
    it instantiates) and of [fastapi/configure_problem_details.py]
    (legacy client detector, rollout decision, format chooser, client-tier
    cache), followed by the properties established about them.

    Conventions of the embedding.
    - A Python [str] is a Rocq [string]; every [ascii] stands for ONE
      character, the code point 0..255 of that number.  [len] is therefore
      [String.length], and [.encode()] (UTF-8) is written out in [utf8_encode].
      Characters above U+00FF are outside the model.
    - A Python value of unknown type ([Any], a dict value) is a [PyVal];
      an exception is the [Raise] branch of [Result].
    - A [dict] read by key is a [gmap]; a [dict] that is iterated is an
      association list in insertion order. *)

From Stdlib Require Import ZArith NArith Ascii String DecimalString Bool Lia.
From stdpp Require Import base option list gmap strings.

Open Scope string_scope.
Open Scope list_scope.

(** ** Python built-ins used by the code *)

Module Py.

(** [str.isspace] on one character, for the code points below 256:
    TAB..CR, FS..US, SPACE, NEL and NBSP. *)
Definition isspace (c : ascii) : bool :=
  let n := nat_of_ascii c in
  (((9 <=? n) && (n <=? 13)) || ((28 <=? n) && (n <=? 32))
   || (n =? 133) || (n =? 160))%nat.

Fixpoint drop_space (l : list ascii) : list ascii :=
  match l with
  | c :: l' => if isspace c then drop_space l' else l
  | [] => []
  end.

(** [s.strip()] *)
Definition strip (s : string) : string :=
  string_of_list_ascii
    (rev (drop_space (rev (drop_space (list_ascii_of_string s))))).

(** [str.lower] on one character: A..Z and the Latin-1 capitals
    (U+00C0..U+00DE without the multiplication sign U+00D7). *)
Definition lower_char (c : ascii) : ascii :=
  let n := nat_of_ascii c in
  if (((65 <=? n) && (n <=? 90))
      || ((192 <=? n) && (n <=? 222) && negb (n =? 215)))%nat
  then ascii_of_nat (n + 32) else c.

(** [s.lower()] *)
Fixpoint lower (s : string) : string :=
  match s with
  | EmptyString => EmptyString
  | String c s' => String (lower_char c) (lower s')
  end.

(** [s.replace(old, new)] for a one-character [old]. *)
Fixpoint replace (old : ascii) (new : string) (s : string) : string :=
  match s with
  | EmptyString => EmptyString
  | String c s' =>
      if Ascii.eqb c old then new +:+ replace old new s'
      else String c (replace old new s')
  end.

(** [pat in s] on strings: [pat] occurs in [s] as a substring. *)
Fixpoint contains (pat s : string) : bool :=
  String.prefix pat s
  || match s with
     | EmptyString => false
     | String _ s' => contains pat s'
     end.

(** [s.startswith(p)] *)
Definition startswith (s p : string) : bool := String.prefix p s.

(** [sep.join(l)] *)
Definition join (sep : string) (l : list string) : string :=
  String.concat sep l.

(** [str(n)] for an [int]. *)
Definition str_int (z : Z) : string := NilEmpty.string_of_int (Z.to_int z).

(** Truthiness of a string: [bool(s)]. *)
Definition truthy (s : string) : bool :=
  match s with EmptyString => false | _ => true end.

End Py.

(** A Python value as the mapper can meet it in a failure record.  A float is
    never computed with, only printed, and carries its [repr]. *)
Inductive PyVal : Type :=
  | VNone
  | VBool (b : bool)
  | VInt (z : Z)
  | VFloat (repr : string)
  | VStr (s : string).

(** [str(v)] *)
Definition py_str (v : PyVal) : string :=
  match v with
  | VNone => "None"
  | VBool true => "True"
  | VBool false => "False"
  | VInt z => Py.str_int z
  | VFloat r => r
  | VStr s => s
  end.

(** [isinstance(v, (int, str))]; [bool] is a subclass of [int]. *)
Definition is_int_or_str (v : PyVal) : bool :=
  match v with
  | VBool _ | VInt _ | VStr _ => true
  | VNone | VFloat _ => false
  end.

(** ** JSON Pointer encoder *)

(** The two chained [replace] calls of the loop body. *)
Definition escape_segment (segment_str : string) : string :=
  Py.replace "/" "~1" (Py.replace "~" "~0" segment_str).

(** [_loc_to_json_pointer]: the early return on an empty tuple, then the loop
    appending one escaped segment per element to [segments], then the join. *)
Definition _loc_to_json_pointer (loc : list PyVal) : string :=
  match loc with
  | [] => ""
  | _ =>
      let segments :=
        fold_left
          (fun segments segment =>
             let segment_str := py_str segment in
             let segment_str := escape_segment segment_str in
             segments ++ [segment_str])
          loc [] in
      "/" +:+ Py.join "/" segments
  end.

(** ** Exceptions and results *)

(** The only exception the modelled code raises is pydantic's
    [ValidationError]; it carries the attribute names of the rejected fields,
    in the order of the field declarations. *)
Inductive exn : Type :=
  | ValidationError (rejected : list string).

Inductive Result (A : Type) : Type :=
  | Ok (a : A)
  | Raise (e : exn).
Arguments Ok {A} a.
Arguments Raise {A} e.

Definition is_ok {A} (r : Result A) : bool :=
  match r with Ok _ => true | Raise _ => false end.

(** ** Field validation, as pydantic runs it

    A field validator returns [None] when it rejects the input.  The checks of
    one field run in sequence (option monad); the fields of a model are all
    validated and the rejected ones reported together. *)

Module Field.

(** A [str] annotation on an untyped input (lax mode takes no number and no
    [None] for a string). *)
Definition str_type (v : PyVal) : option string :=
  match v with VStr s => Some s | _ => None end.

(** [Field(min_length=lo, max_length=hi)] on a string. *)
Definition str_len (lo hi : nat) (s : string) : option string :=
  if ((lo <=? String.length s) && (String.length s <=? hi))%nat then Some s
  else None.

(** [Field(max_length=hi)] on an [Optional[str]]: [None] passes. *)
Definition opt_str_max (hi : nat) (o : option string)
  : option (option string) :=
  match o with
  | None => Some None
  | Some s => if (String.length s <=? hi)%nat then Some (Some s) else None
  end.

(** [Field(ge=lo, le=hi)] on an integer. *)
Definition int_range (lo hi : Z) (n : Z) : option Z :=
  if ((lo <=? n) && (n <=? hi))%Z then Some n else None.

(** [Field(ge=lo)] on an integer. *)
Definition int_ge (lo : Z) (n : Z) : option Z :=
  if (lo <=? n)%Z then Some n else None.

(** The name of a field if its validation failed. *)
Definition rejected {A} (name : string) (o : option A) : list string :=
  match o with Some _ => [] | None => [name] end.

End Field.

(** ** ValidationErrorDetail *)

Record ValidationErrorDetail : Type := {
  field : string;
  message : string;
  error_type : string;
  value : PyVal;
  constraint : option string
}.

(** [ValidationErrorDetail.validate_non_empty], the after-validator of
    [field] and [error_type]. *)
Definition validate_non_empty (v : string) : option string :=
  if negb (Py.truthy v) || negb (Py.truthy (Py.strip v)) then None
  else Some (Py.strip v).

(** The constructor call [ValidationErrorDetail(field=..., message=...,
    error_type=..., value=..., constraint=...)].  [field], [message] and
    [constraint] arrive typed from the mapper; [error_type] is whatever the
    failure record held. *)
Definition ValidationErrorDetail_init
    (field_ message_ : string) (error_type_ : PyVal) (value_ : PyVal)
    (constraint_ : option string) : Result ValidationErrorDetail :=
  let v_field : option string :=
    s ← Field.str_len 1 256 field_;
    validate_non_empty s in
  let v_message : option string := Field.str_len 1 512 message_ in
  let v_error_type : option string :=
    s ← Field.str_type error_type_;
    s ← Field.str_len 1 128 s;
    validate_non_empty s in
  let v_constraint := Field.opt_str_max 256 constraint_ in
  match v_field, v_message, v_error_type, v_constraint with
  | Some f, Some m, Some t, Some c =>
      Ok {| field := f; message := m; error_type := t; value := value_;
            constraint := c |}
  | _, _, _, _ =>
      Raise (ValidationError
               (Field.rejected "field" v_field
                ++ Field.rejected "message" v_message
                ++ Field.rejected "error_type" v_error_type
                ++ Field.rejected "constraint" v_constraint))
  end.

(** ** ProblemDetails and ValidationProblemDetails *)

(** The fields of [ValidationProblemDetails]: those inherited from
    [ProblemDetails] (with [status] narrowed to 400..499) and its own three.
    A [datetime] is an instant on some integer time line. *)
Record ValidationProblemDetails : Type := {
  problem_type : string;
  title : string;
  status : Z;
  detail : string;
  instance : option string;
  error_code : option string;
  timestamp : option Z;
  request_id : option string;
  errors : list ValidationErrorDetail;
  error_count : Z;
  error_source : option string
}.

(** [ProblemDetails.validate_problem_type_uri] (mode "before"); after
    [v = str(v).strip()] the value is a plain string, so the [Enum] escape
    never applies. *)
Definition validate_problem_type_uri (v : string) : option string :=
  let v := Py.strip v in
  if negb (Py.startswith v "http://" || Py.startswith v "https://"
           || Py.startswith v "urn:" || Py.startswith v "#"
           || Py.startswith v "/")
  then None
  else Some v.

Definition is_alpha (c : ascii) : bool :=
  let n := nat_of_ascii c in
  (((65 <=? n) && (n <=? 90)) || ((97 <=? n) && (n <=? 122)))%nat.

Definition is_scheme_char (c : ascii) : bool :=
  let n := nat_of_ascii c in
  (is_alpha c || ((48 <=? n) && (n <=? 57))
   || (n =? 43) || (n =? 46) || (n =? 45))%nat.

(** After the first letter of a scheme: a run of scheme characters closed by
    a colon. *)
Fixpoint scheme_rest (s : string) : bool :=
  match s with
  | EmptyString => false
  | String c s' =>
      if Ascii.eqb c ":" then true
      else if is_scheme_char c then scheme_rest s' else false
  end.

(** The [pattern] of [problem_type]: [^[a-zA-Z][a-zA-Z0-9+.-]*:|^#|^/]. *)
Definition problem_type_pattern (s : string) : option string :=
  let ok :=
    match s with
    | EmptyString => false
    | String c s' =>
        (is_alpha c && scheme_rest s') || Ascii.eqb c "#" || Ascii.eqb c "/"
    end in
  if ok then Some s else None.

(** [ProblemDetails.validate_status_code] *)
Definition validate_status_code (v : Z) : option Z :=
  if negb ((100 <=? v) && (v <=? 599))%Z then None else Some v.

(** [ProblemDetails.validate_non_empty_strings], on [title] and [detail]. *)
Definition validate_non_empty_strings (v : string) : option string :=
  if negb (Py.truthy v) || negb (Py.truthy (Py.strip v)) then None
  else Some v.

(** [ValidationProblemDetails.ensure_non_empty_errors] (mode "before"). *)
Definition ensure_non_empty_errors
    (v : list ValidationErrorDetail) : option (list ValidationErrorDetail) :=
  if (length v =? 0)%nat then None else Some v.

(** [Field(min_length=1)] on the [errors] list. *)
Definition errors_min_length
    (v : list ValidationErrorDetail) : option (list ValidationErrorDetail) :=
  if (1 <=? length v)%nat then Some v else None.

(** [ProblemDetails.set_timestamp_if_needed] (model validator, mode "after");
    [utcnow] is the clock reading. *)
Definition set_timestamp_if_needed
    (utcnow : Z) (self : ValidationProblemDetails) : ValidationProblemDetails :=
  match timestamp self, request_id self with
  | None, Some _ =>
      {| problem_type := problem_type self; title := title self;
         status := status self; detail := detail self;
         instance := instance self; error_code := error_code self;
         timestamp := Some utcnow; request_id := request_id self;
         errors := errors self; error_count := error_count self;
         error_source := error_source self |}
  | _, _ => self
  end.

(** [ValidationProblemDetails.validate_error_count_matches_errors] (model
    validator, mode "after"). *)
Definition validate_error_count_matches_errors
    (self : ValidationProblemDetails) : ValidationProblemDetails :=
  if negb (error_count self =? Z.of_nat (length (errors self)))%Z then
    {| problem_type := problem_type self; title := title self;
       status := status self; detail := detail self;
       instance := instance self; error_code := error_code self;
       timestamp := timestamp self; request_id := request_id self;
       errors := errors self;
       error_count := Z.of_nat (length (errors self));
       error_source := error_source self |}
  else self.

(** The constructor call [ValidationProblemDetails(problem_type=..., ...)].
    [kw] holds the keyword arguments as the caller supplies them (both callers
    in the module pass [status=400] explicitly); [utcnow] is the clock.  Every
    field is validated, the rejected ones are reported together, and the two
    model validators run on the assembled object. *)
Definition ValidationProblemDetails_init
    (utcnow : Z) (kw : ValidationProblemDetails)
  : Result ValidationProblemDetails :=
  let v_problem_type : option string :=
    s ← validate_problem_type_uri (problem_type kw);
    s ← Field.str_len 1 2048 s;
    problem_type_pattern s in
  let v_title : option string :=
    s ← Field.str_len 1 255 (title kw);
    validate_non_empty_strings s in
  let v_status : option Z :=
    n ← Field.int_range 400 499 (status kw);
    validate_status_code n in
  let v_detail : option string :=
    s ← Field.str_len 1 1024 (detail kw);
    validate_non_empty_strings s in
  let v_instance : option (option string) :=
    Field.opt_str_max 2048 (instance kw) in
  let v_errors : option (list ValidationErrorDetail) :=
    l ← ensure_non_empty_errors (errors kw);
    errors_min_length l in
  let v_error_count : option Z := Field.int_ge 1 (error_count kw) in
  match v_problem_type, v_title, v_status, v_detail, v_instance,
        v_errors, v_error_count with
  | Some pt, Some ti, Some st, Some de, Some ins, Some errs, Some cnt =>
      let self :=
        {| problem_type := pt; title := ti; status := st; detail := de;
           instance := ins; error_code := error_code kw;
           timestamp := timestamp kw; request_id := request_id kw;
           errors := errs; error_count := cnt;
           error_source := error_source kw |} in
      let self := set_timestamp_if_needed utcnow self in
      Ok (validate_error_count_matches_errors self)
  | _, _, _, _, _, _, _ =>
      Raise (ValidationError
               (Field.rejected "problem_type" v_problem_type
                ++ Field.rejected "title" v_title
                ++ Field.rejected "status" v_status
                ++ Field.rejected "detail" v_detail
                ++ Field.rejected "instance" v_instance
                ++ Field.rejected "errors" v_errors
                ++ Field.rejected "error_count" v_error_count))
  end.

(** ** Validation error mapper *)

(** One entry of [error_list]: a dict read at the keys ["loc"], ["msg"],
    ["type"] and ["ctx"].  [None] is an absent key. *)
Record ErrorDict : Type := {
  loc : option (list PyVal);
  msg : option PyVal;
  type_ : option PyVal;
  ctx : option (gmap string PyVal)
}.

(** The keys the constraint summary may draw from. *)
Definition constraint_keys : list string :=
  ["min_length"; "max_length"; "ge"; "le"; "pattern"].

(** The inner loop over [constraint_keys], appending to [constraint_parts]. *)
Definition constraint_parts (ctx_ : gmap string PyVal) : list string :=
  fold_left
    (fun constraint_parts key =>
       match ctx_ !! key with
       | Some value_ =>
           if is_int_or_str value_
              && (String.length (py_str value_) <? 100)%nat
           then constraint_parts ++ [key +:+ "=" +:+ py_str value_]
           else constraint_parts
       | None => constraint_parts
       end)
    constraint_keys [].

(** [constraint] as computed for one failure: [None] unless [ctx] is a
    non-empty dict and some part was selected. *)
Definition build_constraint (ctx_ : gmap string PyVal) : option string :=
  if bool_decide (ctx_ ≠ ∅) then
    match constraint_parts ctx_ with
    | [] => None
    | parts => Some (Py.join ", " parts)
    end
  else None.

(** The body of the loop over [error_list] for one [error]. *)
Definition map_error (error : ErrorDict) : Result ValidationErrorDetail :=
  let loc_ := default [] (loc error) in
  let field_path := _loc_to_json_pointer loc_ in
  let msg_ := py_str (default (VStr "Unknown error") (msg error)) in
  let error_type_ := default (VStr "validation.error") (type_ error) in
  let ctx_ := default ∅ (ctx error) in
  let constraint_ := build_constraint ctx_ in
  ValidationErrorDetail_init field_path msg_ error_type_ VNone constraint_.

(** The loop over [error_list]; an exception of the constructor leaves it. *)
Fixpoint map_errors (error_list : list ErrorDict)
    (validation_errors : list ValidationErrorDetail)
  : Result (list ValidationErrorDetail) :=
  match error_list with
  | [] => Ok validation_errors
  | error :: rest =>
      match map_error error with
      | Ok d => map_errors rest (validation_errors ++ [d])
      | Raise e => Raise e
      end
  end.

Definition default_problem_type : string :=
  "https://api.example.com/errors/validation".

(** The summary line of the document. *)
Definition detail_text (error_count_ : nat) : string :=
  Py.str_int (Z.of_nat error_count_) +:+ " validation error"
  +:+ (if negb (error_count_ =? 1)%nat then "s" else "") +:+ " occurred".

(** [build_from_pydantic_error(error_list, instance, problem_type)] *)
Definition build_from_pydantic_error
    (utcnow : Z) (error_list : list ErrorDict) (instance_ : option string)
    (problem_type_ : string) : Result ValidationProblemDetails :=
  match map_errors error_list [] with
  | Raise e => Raise e
  | Ok validation_errors =>
      let error_count_ := length validation_errors in
      let detail_ := detail_text error_count_ in
      ValidationProblemDetails_init utcnow
        {| problem_type := problem_type_; title := "Validation Failed";
           status := 400; detail := detail_; instance := instance_;
           error_code := None; timestamp := None; request_id := None;
           errors := validation_errors;
           error_count := Z.of_nat error_count_;
           error_source := None |}
  end.

(** ** hashlib.md5

    The digest the cache key is made of (RFC 1321), on 32-bit words held in
    [Z] with the wrap-around written out. *)

Module MD5.
Local Open Scope Z_scope.

Definition mask32 : Z := 0xffffffff.
Definition add32 (x y : Z) : Z := Z.land (x + y) mask32.
Definition not32 (x : Z) : Z := Z.lxor x mask32.
Definition rotl32 (x c : Z) : Z :=
  Z.land (Z.lor (Z.shiftl x c) (Z.shiftr x (32 - c))) mask32.

(** Per-round shift amounts. *)
Definition S : list Z :=
  [7; 12; 17; 22; 7; 12; 17; 22; 7; 12; 17; 22; 7; 12; 17; 22;
   5; 9; 14; 20; 5; 9; 14; 20; 5; 9; 14; 20; 5; 9; 14; 20;
   4; 11; 16; 23; 4; 11; 16; 23; 4; 11; 16; 23; 4; 11; 16; 23;
   6; 10; 15; 21; 6; 10; 15; 21; 6; 10; 15; 21; 6; 10; 15; 21].

(** [floor(2^32 * abs(sin(i + 1)))] for [i] in 0..63. *)
Definition K : list Z :=
  [ 0xd76aa478; 0xe8c7b756; 0x242070db; 0xc1bdceee;
    0xf57c0faf; 0x4787c62a; 0xa8304613; 0xfd469501;
    0x698098d8; 0x8b44f7af; 0xffff5bb1; 0x895cd7be;
    0x6b901122; 0xfd987193; 0xa679438e; 0x49b40821;
    0xf61e2562; 0xc040b340; 0x265e5a51; 0xe9b6c7aa;
    0xd62f105d; 0x02441453; 0xd8a1e681; 0xe7d3fbc8;
    0x21e1cde6; 0xc33707d6; 0xf4d50d87; 0x455a14ed;
    0xa9e3e905; 0xfcefa3f8; 0x676f02d9; 0x8d2a4c8a;
    0xfffa3942; 0x8771f681; 0x6d9d6122; 0xfde5380c;
    0xa4beea44; 0x4bdecfa9; 0xf6bb4b60; 0xbebfbc70;
    0x289b7ec6; 0xeaa127fa; 0xd4ef3085; 0x04881d05;
    0xd9d4d039; 0xe6db99e5; 0x1fa27cf8; 0xc4ac5665;
    0xf4292244; 0x432aff97; 0xab9423a7; 0xfc93a039;
    0x655b59c3; 0x8f0ccc92; 0xffeff47d; 0x85845dd1;
    0x6fa87e4f; 0xfe2ce6e0; 0xa3014314; 0x4e0811a1;
    0xf7537e82; 0xbd3af235; 0x2ad7d2bb; 0xeb86d391 ].

(** [s.encode()]: UTF-8 of the code points below 256. *)
Definition utf8_encode (s : string) : list Z :=
  flat_map
    (fun c => let n := Z.of_nat (nat_of_ascii c) in
              if n <? 128 then [n] else [192 + n / 64; 128 + n mod 64])
    (list_ascii_of_string s).

(** [n] as [k] little-endian bytes. *)
Fixpoint le_bytes (k : nat) (n : Z) : list Z :=
  match k with
  | O => []
  | Datatypes.S k' => n mod 256 :: le_bytes k' (n / 256)
  end.

(** A little-endian byte list as a number. *)
Definition le_word (bs : list Z) : Z :=
  fold_right (fun b acc => b + 256 * acc) 0 bs.

(** The message, the 0x80 byte, zeros up to 56 modulo 64, the bit length. *)
Definition pad (m : list Z) : list Z :=
  let len := Z.of_nat (length m) in
  m ++ [0x80] ++ repeat 0 (Z.to_nat ((55 - len) mod 64))
    ++ le_bytes 8 ((8 * len) mod 2 ^ 64).

(** The sixteen words of the first 64 bytes of [bs]. *)
Fixpoint words (k : nat) (bs : list Z) : list Z :=
  match k with
  | O => []
  | Datatypes.S k' => le_word (take 4 bs) :: words k' (drop 4 bs)
  end.

Definition round (M : list Z) (st : Z * Z * Z * Z) (i : Z)
  : Z * Z * Z * Z :=
  let '(A, B, C, D) := st in
  let '(F, g) :=
    if i <? 16 then (Z.lor (Z.land B C) (Z.land (not32 B) D), i)
    else if i <? 32 then
      (Z.lor (Z.land D B) (Z.land (not32 D) C), (5 * i + 1) mod 16)
    else if i <? 48 then (Z.lxor B (Z.lxor C D), (3 * i + 5) mod 16)
    else (Z.lxor C (Z.lor B (not32 D)), (7 * i) mod 16) in
  let F := add32 (add32 (add32 F A) (nth (Z.to_nat i) K 0))
                 (nth (Z.to_nat g) M 0) in
  (D, add32 B (rotl32 F (nth (Z.to_nat i) S 0)), B, C).

Definition block (st : Z * Z * Z * Z) (bs : list Z) : Z * Z * Z * Z :=
  let M := words 16 bs in
  let '(a0, b0, c0, d0) := st in
  let '(A, B, C, D) := fold_left (round M) (map Z.of_nat (seq 0 64)) st in
  (add32 a0 A, add32 b0 B, add32 c0 C, add32 d0 D).

(** The padded message, 64 bytes at a time; [n] counts the blocks. *)
Fixpoint blocks (n : nat) (st : Z * Z * Z * Z) (bs : list Z)
  : Z * Z * Z * Z :=
  match n with
  | O => st
  | Datatypes.S n' => blocks n' (block st (take 64 bs)) (drop 64 bs)
  end.

Definition hex_digit (n : Z) : ascii :=
  nth (Z.to_nat n) (list_ascii_of_string "0123456789abcdef") "0"%char.

Definition hex_byte (b : Z) : string :=
  String (hex_digit (b / 16)) (String (hex_digit (b mod 16)) EmptyString).

(** [hashlib.md5(data).hexdigest()] *)
Definition hexdigest (data : list Z) : string :=
  let p := pad data in
  let '(a, b, c, d) :=
    blocks (length p / 64)
           (0x67452301, 0xefcdab89, 0x98badcfe, 0x10325476) p in
  String.concat ""
    (map hex_byte (le_bytes 4 a ++ le_bytes 4 b ++ le_bytes 4 c
                   ++ le_bytes 4 d)).

End MD5.

(** ** Enumerations of the configuration module *)

Inductive RolloutMode : Type :=
  | DISABLED | LEGACY_ONLY | HYBRID | OPT_IN | OPT_OUT | ENABLED.

Inductive ClientTier : Type :=
  | LEGACY | COMPATIBLE | MODERN | UNKNOWN.

Inductive ResponseFormat : Type :=
  | RFC7807 | LEGACY_FASTAPI | SIMPLE_JSON | HATEOAS | CUSTOM.

#[global] Instance RolloutMode_eq_dec : EqDecision RolloutMode.
Proof. solve_decision. Defined.

#[global] Instance ClientTier_eq_dec : EqDecision ClientTier.
Proof. solve_decision. Defined.

#[global] Instance ResponseFormat_eq_dec : EqDecision ResponseFormat.
Proof. solve_decision. Defined.

Definition ResponseFormat_to_nat (f : ResponseFormat) : nat :=
  match f with
  | RFC7807 => 0 | LEGACY_FASTAPI => 1 | SIMPLE_JSON => 2
  | HATEOAS => 3 | CUSTOM => 4
  end.

Definition ResponseFormat_of_nat (n : nat) : ResponseFormat :=
  match n with
  | 0 => RFC7807 | 1 => LEGACY_FASTAPI | 2 => SIMPLE_JSON
  | 3 => HATEOAS | _ => CUSTOM
  end.

#[global] Instance ResponseFormat_countable : Countable ResponseFormat.
Proof.
  refine (inj_countable' ResponseFormat_to_nat ResponseFormat_of_nat _).
  intros []; reflexivity.
Defined.

(** ** Legacy client detector *)

(** One value of the [legacy_user_agents] dict: [{"version_max": ...,
    "tier": ...}], the first key optional. *)
Record LegacyPattern : Type := {
  version_max : option string;
  tier : ClientTier
}.

(** The four registries; each is iterated in insertion order. *)
Record LegacyClientDetector : Type := {
  legacy_user_agents : list (string * LegacyPattern);
  modern_user_agents : list (string * ClientTier);
  legacy_accept_headers : list (string * ClientTier);
  rfc7807_accept_headers : list (string * ClientTier)
}.

(** [LegacyClientDetector.__init__] *)
Definition LegacyClientDetector_init : LegacyClientDetector := {|
  legacy_user_agents :=
    [ ("com.example.app", {| version_max := Some "1.0.0"; tier := LEGACY |});
      ("com.mobile.app", {| version_max := Some "2.0.0"; tier := LEGACY |});
      ("axios/0", {| version_max := None; tier := LEGACY |});
      ("node-fetch/1", {| version_max := None; tier := LEGACY |});
      ("urllib3", {| version_max := Some "1.25.0"; tier := LEGACY |});
      ("IE", {| version_max := None; tier := LEGACY |});
      ("old-client", {| version_max := None; tier := LEGACY |}) ];
  modern_user_agents :=
    [ ("axios", COMPATIBLE); ("requests", COMPATIBLE); ("httpx", MODERN);
      ("curl", COMPATIBLE); ("fetch", MODERN); ("RestClient", COMPATIBLE) ];
  legacy_accept_headers :=
    [ ("application/json", UNKNOWN); ("*/*", UNKNOWN) ];
  rfc7807_accept_headers :=
    [ ("application/problem+json", MODERN);
      ("application/vnd.api+json", MODERN);
      ("application/ld+json", MODERN) ]
|}.

(** [s.split(sep)] for a one-character separator; [cur] is the piece being
    read. *)
Fixpoint split_from (sep : ascii) (cur : string) (s : string) : list string :=
  match s with
  | EmptyString => [cur]
  | String c s' =>
      if Ascii.eqb c sep then cur :: split_from sep EmptyString s'
      else split_from sep (cur +:+ String c EmptyString) s'
  end.

Definition split (sep : ascii) (s : string) : list string :=
  split_from sep EmptyString s.

Definition is_digit (c : ascii) : bool :=
  let n := nat_of_ascii c in ((48 <=? n) && (n <=? 57))%nat.

(** Decimal digits, single underscores allowed between two digits. *)
Fixpoint digits_value (l : list ascii) (acc : Z) (after_digit : bool)
  : option Z :=
  match l with
  | [] => if after_digit then Some acc else None
  | c :: l' =>
      if is_digit c then
        digits_value l' (10 * acc + Z.of_nat (nat_of_ascii c - 48)) true
      else if Ascii.eqb c "_" && after_digit then digits_value l' acc false
      else None
  end.

(** [int(x)] on a string; [None] is [ValueError]. *)
Definition py_int (x : string) : option Z :=
  match list_ascii_of_string (Py.strip x) with
  | "-"%char :: l => Z.opp <$> digits_value l 0 false
  | "+"%char :: l => digits_value l 0 false
  | l => digits_value l 0 false
  end.

(** [[int(x) for x in v.split(".")]] *)
Definition version_parts (v : string) : option (list Z) :=
  mapM py_int (split "." v).

(** Comparison of two lists of integers as Python orders lists. *)
Fixpoint list_compare (l1 l2 : list Z) : comparison :=
  match l1, l2 with
  | [], [] => Eq
  | [], _ :: _ => Lt
  | _ :: _, [] => Gt
  | x :: l1', y :: l2' =>
      match Z.compare x y with
      | Eq => list_compare l1' l2'
      | c => c
      end
  end.

(** [LegacyClientDetector._compare_versions]; a part that is no integer makes
    the result 0. *)
Definition _compare_versions (v1 v2 : string) : Z :=
  match version_parts v1, version_parts v2 with
  | Some parts1, Some parts2 =>
      let max_len := Nat.max (length parts1) (length parts2) in
      let parts1 := parts1 ++ repeat 0%Z (max_len - length parts1) in
      let parts2 := parts2 ++ repeat 0%Z (max_len - length parts2) in
      match list_compare parts1 parts2 with
      | Lt => (-1)%Z
      | Gt => 1%Z
      | Eq => 0%Z
      end
  | _, _ => 0%Z
  end.

(** [LegacyClientDetector._is_legacy_client_id] *)
Definition _is_legacy_client_id (client_id : string) : bool :=
  let legacy_clients : gset string := {[ "client_old_1"; "client_legacy_2" ]} in
  bool_decide (client_id ∈ legacy_clients).

(** Truthiness of an [Optional[str]] argument. *)
Definition given (o : option string) : bool :=
  match o with Some s => Py.truthy s | None => false end.

(** The loop over [rfc7807_accept_headers]: some key occurs in the header. *)
Definition accepts_rfc7807
    (self : LegacyClientDetector) (accept_header : string) : bool :=
  existsb (fun '(rfc_header, _) => Py.contains rfc_header accept_header)
          (rfc7807_accept_headers self).

(** The loop over [legacy_user_agents]; [Some] is a [return]. *)
Fixpoint match_legacy (patterns : list (string * LegacyPattern))
    (user_agent : string) (api_version : option string) : option ClientTier :=
  match patterns with
  | [] => None
  | (pattern, config) :: rest =>
      if Py.contains (Py.lower pattern) (Py.lower user_agent) then
        match version_max config, api_version with
        | Some vmax, Some v =>
            if Py.truthy v && (_compare_versions v vmax <=? 0)%Z
            then Some LEGACY
            else Some (tier config)
        | _, _ => Some (tier config)
        end
      else match_legacy rest user_agent api_version
  end.

(** The loop over [modern_user_agents]. *)
Fixpoint match_modern (patterns : list (string * ClientTier))
    (user_agent : string) : option ClientTier :=
  match patterns with
  | [] => None
  | (pattern, tier_) :: rest =>
      if Py.contains (Py.lower pattern) (Py.lower user_agent) then Some tier_
      else match_modern rest user_agent
  end.

(** [LegacyClientDetector.detect] *)
Definition detect (self : LegacyClientDetector)
    (user_agent accept_header client_id api_version : option string)
  : ClientTier :=
  if given accept_header
     && accepts_rfc7807 self (default EmptyString accept_header)
  then MODERN
  else
    let by_agent :=
      if given user_agent then
        let ua := default EmptyString user_agent in
        match match_legacy (legacy_user_agents self) ua api_version with
        | Some t => Some t
        | None => match_modern (modern_user_agents self) ua
        end
      else None in
    match by_agent with
    | Some t => t
    | None =>
        if given client_id
           && _is_legacy_client_id (default EmptyString client_id)
        then LEGACY
        else UNKNOWN
    end.

(** ** Rollout configuration and its manager *)

(** [ProblemDetailsConfig], with the rollout, legacy-support, negotiation and
    performance fields.  The security, metadata, extension, content-type and
    deprecation fields are read by none of the methods below. *)
Record ProblemDetailsConfig : Type := {
  mode : RolloutMode;
  enabled : bool;
  support_legacy : bool;
  detect_legacy_clients : bool;
  legacy_format : ResponseFormat;
  respect_accept_header : bool;
  default_format : ResponseFormat;
  allowed_formats : gset ResponseFormat;
  cache_detection : bool;
  detection_cache_ttl : Z
}.

(** The dataclass defaults, at a given [mode] and [enabled] flag. *)
Definition ProblemDetailsConfig_default
    (mode_ : RolloutMode) (enabled_ : bool) : ProblemDetailsConfig := {|
  mode := mode_;
  enabled := enabled_;
  support_legacy := true;
  detect_legacy_clients := true;
  legacy_format := LEGACY_FASTAPI;
  respect_accept_header := true;
  default_format := RFC7807;
  allowed_formats := {[ RFC7807; LEGACY_FASTAPI; SIMPLE_JSON ]};
  cache_detection := true;
  detection_cache_ttl := 3600
|}.

(** The state of a [ProblemDetailsConfigurationManager] that the methods
    below read or write. *)
Record ProblemDetailsConfigurationManager : Type := {
  config : ProblemDetailsConfig;
  detector : LegacyClientDetector;
  _client_cache : gmap string ClientTier
}.

(** [ProblemDetailsConfigurationManager.__init__] with an explicit config. *)
Definition ProblemDetailsConfigurationManager_init
    (config_ : ProblemDetailsConfig) : ProblemDetailsConfigurationManager := {|
  config := config_;
  detector := LegacyClientDetector_init;
  _client_cache := ∅
|}.

(** [f"{x}"] for an [Optional[str]]. *)
Definition fmt (o : option string) : string :=
  match o with Some s => s | None => "None" end.

(** The cache key of [get_client_tier]; [api_version] takes no part. *)
Definition cache_key (user_agent accept_header client_id : option string)
  : string :=
  MD5.hexdigest
    (MD5.utf8_encode (fmt user_agent +:+ fmt accept_header +:+ fmt client_id)).

(** [get_client_tier]: the returned tier and the manager afterwards. *)
Definition get_client_tier (self : ProblemDetailsConfigurationManager)
    (user_agent accept_header client_id api_version : option string)
  : ClientTier * ProblemDetailsConfigurationManager :=
  if negb (detect_legacy_clients (config self)) then (MODERN, self)
  else
    let key := cache_key user_agent accept_header client_id in
    match (if cache_detection (config self)
           then _client_cache self !! key else None) with
    | Some cached => (cached, self)
    | None =>
        let tier_ :=
          detect (detector self) user_agent accept_header client_id
                 api_version in
        if cache_detection (config self) then
          (tier_, {| config := config self; detector := detector self;
                     _client_cache := <[key := tier_]> (_client_cache self) |})
        else (tier_, self)
    end.

(** [should_use_rfc7807] *)
Definition should_use_rfc7807 (self : ProblemDetailsConfigurationManager)
    (client_tier : ClientTier) : bool :=
  if negb (enabled (config self)) then false
  else
    let mode_ := mode (config self) in
    if bool_decide (mode_ = DISABLED) then false
    else if bool_decide (mode_ = LEGACY_ONLY) then false
    else if bool_decide (mode_ = HYBRID) then
      bool_decide (client_tier ≠ LEGACY)
    else if bool_decide (mode_ = OPT_IN) then
      bool_decide (client_tier = MODERN)
    else if bool_decide (mode_ = OPT_OUT) then
      bool_decide (client_tier ≠ LEGACY)
    else if bool_decide (mode_ = ENABLED) then true
    else false.

(** [choose_format] *)
Definition choose_format (self : ProblemDetailsConfigurationManager)
    (client_tier : ClientTier) (accept_header : option string)
    (user_preference : option ResponseFormat) : ResponseFormat :=
  let preferred :=
    match user_preference with
    | Some p =>
        if bool_decide (p ∈ allowed_formats (config self)) then Some p
        else None
    | None => None
    end in
  match preferred with
  | Some p => p
  | None =>
      let by_header :=
        if respect_accept_header (config self) && given accept_header then
          let h := default EmptyString accept_header in
          if Py.contains "application/problem+json" h then Some RFC7807
          else if Py.contains "application/json" h
                  && bool_decide (client_tier = LEGACY)
          then Some (legacy_format (config self))
          else None
        else None in
      match by_header with
      | Some f => f
      | None =>
          if should_use_rfc7807 self client_tier then RFC7807
          else legacy_format (config self)
      end
  end.

(** A sequence of [get_client_tier] calls on one manager: the tiers returned,
    in order, and the manager after the last call. *)
Definition Call : Type :=
  option string * option string * option string * option string.

Definition call_tier (self : ProblemDetailsConfigurationManager) (c : Call)
  : ClientTier * ProblemDetailsConfigurationManager :=
  let '(user_agent, accept_header, client_id, api_version) := c in
  get_client_tier self user_agent accept_header client_id api_version.

Definition call_detect (d : LegacyClientDetector) (c : Call) : ClientTier :=
  let '(user_agent, accept_header, client_id, api_version) := c in
  detect d user_agent accept_header client_id api_version.

Definition call_key (c : Call) : string :=
  let '(user_agent, accept_header, client_id, _) := c in
  cache_key user_agent accept_header client_id.

Fixpoint run_calls (self : ProblemDetailsConfigurationManager)
    (calls : list Call)
  : list ClientTier * ProblemDetailsConfigurationManager :=
  match calls with
  | [] => ([], self)
  | c :: rest =>
      let '(t, self') := call_tier self c in
      let '(ts, self'') := run_calls self' rest in
      (t :: ts, self'')
  end.

(** ** Reference formulations and sample inputs *)

(** RFC 6901 escaping of one character. *)
Definition escape_char (c : ascii) : string :=
  if Ascii.eqb c "~" then "~0"
  else if Ascii.eqb c "/" then "~1"
  else String c EmptyString.

(** Character-wise escaping of a segment. *)
Fixpoint escape_chars (s : string) : string :=
  match s with
  | EmptyString => EmptyString
  | String c s' => escape_char c +:+ escape_chars s'
  end.

(** A manager given by its three parts. *)
Definition manager_with (cfg : ProblemDetailsConfig) (d : LegacyClientDetector)
    (cache : gmap string ClientTier) : ProblemDetailsConfigurationManager := {|
  config := cfg;
  detector := d;
  _client_cache := cache
|}.

(** A manager at the dataclass defaults, [enabled=true], in rollout mode [m];
    detector and cache are left open. *)
Definition manager_at (m : RolloutMode) (d : LegacyClientDetector)
    (cache : gmap string ClientTier) : ProblemDetailsConfigurationManager :=
  manager_with (ProblemDetailsConfig_default m true) d cache.

(** The constraint summary, as a selection: the allow-listed keys, in the
    order of the list, that the context holds with an [int] or [str] value
    whose string form is shorter than 100 characters, each as [key=value]. *)
Definition selected_pair (ctx_ : gmap string PyVal) (key : string)
  : option string :=
  v ← ctx_ !! key;
  if is_int_or_str v && (String.length (py_str v) <? 100)%nat
  then Some (key +:+ "=" +:+ py_str v) else None.

Definition constraint_summary (ctx_ : gmap string PyVal) : option string :=
  match omap (selected_pair ctx_) constraint_keys with
  | [] => None
  | pairs => Some (String.concat ", " pairs)
  end.

(** The constraint summary with the length limit as the only filter: every
    allow-listed key present in the context counts, whatever the type of its
    value. *)
Definition claimed_pair (ctx_ : gmap string PyVal) (key : string)
  : option string :=
  v ← ctx_ !! key;
  if (String.length (py_str v) <? 100)%nat
  then Some (key +:+ "=" +:+ py_str v) else None.

Definition constraint_claimed (ctx_ : gmap string PyVal) : option string :=
  match omap (claimed_pair ctx_) constraint_keys with
  | [] => None
  | pairs => Some (String.concat ", " pairs)
  end.

(** The [constraint] attributes of a returned document, if one is returned. *)
Definition constraints_of (r : Result ValidationProblemDetails)
  : option (list (option string)) :=
  match r with
  | Ok doc => Some (map constraint (errors doc))
  | Raise _ => None
  end.

(** A failure of a float bound: [{"type": "greater_than_equal",
    "loc": ("price",), "msg": "too small", "ctx": {"ge": 0.5}}]. *)
Definition float_bound_error : ErrorDict := {|
  loc := Some [VStr "price"];
  msg := Some (VStr "too small");
  type_ := Some (VStr "greater_than_equal");
  ctx := Some {[ "ge" := VFloat "0.5" ]}
|}.

(** A failure whose context carries the rejected input next to a bound. *)
Definition secret_error : ErrorDict := {|
  loc := Some [VStr "password"];
  msg := Some (VStr "Invalid");
  type_ := Some (VStr "string_too_short");
  ctx := Some {[ "input" := VStr "secret123"; "min_length" := VInt 8 ]}
|}.

(** The document the mapper returns for [[secret_error; float_bound_error]]
    with no instance and the default problem type. *)
Definition two_error_document : ValidationProblemDetails := {|
  problem_type := default_problem_type;
  title := "Validation Failed";
  status := 400;
  detail := "2 validation errors occurred";
  instance := None;
  error_code := None;
  timestamp := None;
  request_id := None;
  errors :=
    [ {| field := "/password"; message := "Invalid";
         error_type := "string_too_short"; value := VNone;
         constraint := Some "min_length=8" |};
      {| field := "/price"; message := "too small";
         error_type := "greater_than_equal"; value := VNone;
         constraint := None |} ];
  error_count := 2;
  error_source := None
|}.

(** [{"type": None, "loc": ("field",), "msg": "msg"}] *)
Definition null_kind_error : ErrorDict := {|
  loc := Some [VStr "field"];
  msg := Some (VStr "msg");
  type_ := Some VNone;
  ctx := None
|}.

(** [{"type": "value_error", "loc": (), "msg": "Error"}] *)
Definition empty_loc_error : ErrorDict := {|
  loc := Some [];
  msg := Some (VStr "Error");
  type_ := Some (VStr "value_error");
  ctx := None
|}.

(** [{"loc": ("field",), "msg": "Error message"}], the kind absent. *)
Definition absent_kind_error : ErrorDict := {|
  loc := Some [VStr "field"];
  msg := Some (VStr "Error message");
  type_ := None;
  ctx := None
|}.

(** [{"type": "error", "loc": ("field",), "msg": 42}] *)
Definition numeric_msg_error : ErrorDict := {|
  loc := Some [VStr "field"];
  msg := Some (VInt 42);
  type_ := Some (VStr "error");
  ctx := None
|}.

Definition sample_detail : ValidationErrorDetail := {|
  field := "/email";
  message := "Invalid email format";
  error_type := "value_error.email";
  value := VNone;
  constraint := None
|}.

(** Keyword arguments of a direct construction whose [error_count] (5) does
    not match the one error passed, and the document that comes out. *)
Definition mismatched_kwargs : ValidationProblemDetails := {|
  problem_type := default_problem_type;
  title := "Validation Failed";
  status := 400;
  detail := "Email is invalid";
  instance := None;
  error_code := None;
  timestamp := None;
  request_id := None;
  errors := [sample_detail];
  error_count := 5;
  error_source := Some "body"
|}.

Definition mismatched_document : ValidationProblemDetails := {|
  problem_type := default_problem_type;
  title := "Validation Failed";
  status := 400;
  detail := "Email is invalid";
  instance := None;
  error_code := None;
  timestamp := None;
  request_id := None;
  errors := [sample_detail];
  error_count := 1;
  error_source := Some "body"
|}.

(** A manager at the defaults with [detect_legacy_clients] switched off. *)
Definition detection_off_manager : ProblemDetailsConfigurationManager := {|
  config := {|
    mode := HYBRID;
    enabled := true;
    support_legacy := true;
    detect_legacy_clients := false;
    legacy_format := LEGACY_FASTAPI;
    respect_accept_header := true;
    default_format := RFC7807;
    allowed_formats := {[ RFC7807; LEGACY_FASTAPI; SIMPLE_JSON ]};
    cache_detection := true;
    detection_cache_ttl := 3600
  |};
  detector := LegacyClientDetector_init;
  _client_cache := ∅
|}.

(** Two requests whose three key strings concatenate to the same text,
    ["old-client"]: the first names the client in [User-Agent], the second in
    [Accept]. *)
Definition colliding_calls : list Call :=
  [ (Some "old-client", Some "", Some "", None);
    (Some "", Some "old-client", Some "", None) ].

(** Calls that share a cache key agree on what [detect] says. *)
Definition keys_agree (d : LegacyClientDetector) (calls : list Call) : Prop :=
  ForallOrdPairs
    (fun c c' => call_key c = call_key c' → call_detect d c = call_detect d c')
    calls.

(** ** Reading a JSON Pointer back (RFC 6901) *)

(** Decoding of one reference token: [~1] is [/], [~0] is [~]. *)
Fixpoint unescape (s : string) : string :=
  match s with
  | EmptyString => EmptyString
  | String c r =>
      if Ascii.eqb c "~" then
        match r with
        | String c' r' =>
            if Ascii.eqb c' "0" then String "~" (unescape r')
            else if Ascii.eqb c' "1" then String "/" (unescape r')
            else String c (unescape r)
        | EmptyString => String c EmptyString
        end
      else String c (unescape r)
  end.

(** The reference tokens of a pointer: none for the empty pointer, else the
    pieces between the slashes after the leading one, each decoded. *)
Definition decode_pointer (p : string) : list string :=
  match p with
  | EmptyString => []
  | String _ rest => map unescape (split "/" rest)
  end.

(** How often a character occurs in a string. *)
Fixpoint count_char (c : ascii) (s : string) : nat :=
  match s with
  | EmptyString => 0
  | String c' s' => (if Ascii.eqb c' c then 1 else 0) + count_char c s'
  end.

(** ** The direct constructor helper *)

(** [create_validation_problem(detail, errors, instance, problem_type)] *)
Definition create_validation_problem
    (utcnow : Z) (detail_ : string) (errors_ : list ValidationErrorDetail)
    (instance_ : option string) (problem_type_ : string)
  : Result ValidationProblemDetails :=
  ValidationProblemDetails_init utcnow
    {| problem_type := problem_type_; title := "Validation Failed";
       status := 400; detail := detail_; instance := instance_;
       error_code := None; timestamp := None; request_id := None;
       errors := errors_;
       error_count := Z.of_nat (length errors_);
       error_source := None |}.

(** A string that [validate_non_empty] and [validate_non_empty_strings] let
    through: something is left after stripping. *)
Definition non_blank (v : string) : bool := Py.truthy (Py.strip v).

(** A failure whose location segment and kind carry surrounding blanks:
    [{"type": " value_error ", "loc": ("name ",), "msg": "bad"}]. *)
Definition padded_error : ErrorDict := {|
  loc := Some [VStr "name "];
  msg := Some (VStr "bad");
  type_ := Some (VStr " value_error ");
  ctx := None
|}.

Definition padded_document : ValidationProblemDetails := {|
  problem_type := default_problem_type;
  title := "Validation Failed";
  status := 400;
  detail := "1 validation error occurred";
  instance := Some "/api/v1/users";
  error_code := None;
  timestamp := None;
  request_id := None;
  errors :=
    [ {| field := "/name"; message := "bad"; error_type := "value_error";
         value := VNone; constraint := None |} ];
  error_count := 1;
  error_source := None
|}.

(** The acceptance criterion of the constructor, check by check. *)
Definition kwargs_accepted (kw : ValidationProblemDetails) : Prop :=
  (is_Some (validate_problem_type_uri (problem_type kw))
   ∧ (String.length (Py.strip (problem_type kw)) ≤ 2048)%nat)
  ∧ (non_blank (title kw) = true ∧ (String.length (title kw) ≤ 255)%nat)
  ∧ (400 ≤ status kw ≤ 499)%Z
  ∧ (non_blank (detail kw) = true ∧ (String.length (detail kw) ≤ 1024)%nat)
  ∧ (∀ s, instance kw = Some s → (String.length s ≤ 2048)%nat)
  ∧ errors kw ≠ []
  ∧ (1 ≤ error_count kw)%Z.


(** Keyword arguments with a request id and no timestamp, and the document
    constructed from them when the clock reads 1700000000. *)
Definition traced_kwargs : ValidationProblemDetails := {|
  problem_type := " urn:error:validation ";
  title := "Validation Failed";
  status := 422;
  detail := "Email is invalid";
  instance := None;
  error_code := Some "E42";
  timestamp := None;
  request_id := Some "req-1";
  errors := [sample_detail];
  error_count := 1;
  error_source := None
|}.

Definition traced_document : ValidationProblemDetails := {|
  problem_type := "urn:error:validation";
  title := "Validation Failed";
  status := 422;
  detail := "Email is invalid";
  instance := None;
  error_code := Some "E42";
  timestamp := Some 1700000000%Z;
  request_id := Some "req-1";
  errors := [sample_detail];
  error_count := 1;
  error_source := None
|}.

(** What makes the loop body raise on a failure: a message whose string form
    is empty or longer than 512 characters, a pointer that is blank or longer
    than 256 characters, or a kind that is present and not a string. *)
Definition unmappable (error : ErrorDict) : Prop :=
  let m := py_str (default (VStr "Unknown error") (msg error)) in
  let f := _loc_to_json_pointer (default [] (loc error)) in
  ¬ (1 ≤ String.length m ≤ 512)%nat
  ∨ non_blank f = false
  ∨ (256 < String.length f)%nat
  ∨ (∃ v, type_ error = Some v ∧ Field.str_type v = None).

(** A failure whose message has 513 characters. *)
Definition long_message_error : ErrorDict := {|
  loc := Some [VStr "field"];
  msg := Some (VStr (string_of_list_ascii (repeat "x"%char 513)));
  type_ := Some (VStr "value_error");
  ctx := None
|}.

(** [{"type": "value_error.email", "loc": ("email",), "msg": "bad"}] *)
Definition sample_error_ok : ErrorDict := {|
  loc := Some [VStr "email"];
  msg := Some (VStr "bad");
  type_ := Some (VStr "value_error.email");
  ctx := None
|}.

(** ** Serialization of the models *)

(** What [model_dump] returns: plain values, datetimes, lists and dicts (in
    the order of the fields). *)
#[local] Unset Elimination Schemes.
Inductive Dumped : Type :=
  | DVal (v : PyVal)
  | DTime (t : Z)
  | DList (l : list Dumped)
  | DDict (d : list (string * Dumped)).
#[local] Set Elimination Schemes.

Definition dump_opt_str (o : option string) : Dumped :=
  match o with Some s => DVal (VStr s) | None => DVal VNone end.

Definition dump_opt_time (o : option Z) : Dumped :=
  match o with Some t => DTime t | None => DVal VNone end.

Definition is_none (d : Dumped) : bool :=
  match d with DVal VNone => true | _ => false end.

(** The entries that survive [exclude] and [exclude_none]. *)
Definition dump_filter (exclude : list string) (exclude_none : bool)
    (entries : list (string * Dumped)) : list (string * Dumped) :=
  filter
    (fun '(key, v) =>
       negb (bool_decide (key ∈ exclude)) && negb (exclude_none && is_none v))
    entries.

(** [ValidationErrorDetail.model_dump(by_alias=True, exclude_none=...)] *)
Definition dump_detail (exclude_none : bool) (d : ValidationErrorDetail)
  : list (string * Dumped) :=
  dump_filter [] exclude_none
    [ ("field", DVal (VStr (field d)));
      ("message", DVal (VStr (message d)));
      ("type", DVal (VStr (error_type d)));
      ("value", DVal (value d));
      ("constraint", dump_opt_str (constraint d)) ].

(** [ValidationProblemDetails.model_dump(by_alias=True, exclude_none=...,
    exclude=...)]; [exclude] applies to the top level, [exclude_none] to
    every level. *)
Definition model_dump (self : ValidationProblemDetails)
    (exclude_none : bool) (exclude : list string) : list (string * Dumped) :=
  dump_filter exclude exclude_none
    [ ("type", DVal (VStr (problem_type self)));
      ("title", DVal (VStr (title self)));
      ("status", DVal (VInt (status self)));
      ("detail", DVal (VStr (detail self)));
      ("instance", dump_opt_str (instance self));
      ("error_code", dump_opt_str (error_code self));
      ("timestamp", dump_opt_time (timestamp self));
      ("request_id", dump_opt_str (request_id self));
      ("errors",
       DList (map (fun d => DDict (dump_detail exclude_none d)) (errors self)));
      ("error_count", DVal (VInt (error_count self)));
      ("error_source", dump_opt_str (error_source self)) ].

(** [data[key]] if the key is there. *)
Fixpoint dict_get (key : string) (data : list (string * Dumped))
  : option Dumped :=
  match data with
  | [] => None
  | (k, v) :: rest => if String.eqb k key then Some v else dict_get key rest
  end.

Inductive DumpResult : Type :=
  | DumpOk (data : list (string * Dumped))
  | ValueError (missing : string).

(** The loop over [required_fields]; the set is walked in some order, here
    the one it is written in. *)
Fixpoint check_required (required : list string)
    (data : list (string * Dumped)) : DumpResult :=
  match required with
  | [] => DumpOk data
  | f :: rest =>
      match dict_get f data with
      | None => ValueError f
      | Some _ => check_required rest data
      end
  end.

(** [ProblemDetails.model_dump_rfc7807(include_none=..., include_legacy=...)]
    on a [ValidationProblemDetails]. *)
Definition model_dump_rfc7807 (self : ValidationProblemDetails)
    (include_none include_legacy : bool) : DumpResult :=
  let data :=
    model_dump self (negb include_none)
      (if negb include_legacy then ["error_code"; "timestamp"; "request_id"]
       else []) in
  check_required ["type"; "title"; "status"; "detail"] data.

(** [ProblemDetails.model_dump_with_legacy()] *)
Definition model_dump_with_legacy (self : ValidationProblemDetails)
  : DumpResult :=
  model_dump_rfc7807 self true true.

(** The keys of a dict, in order. *)
Definition keys (data : list (string * Dumped)) : list string := map fst data.

(** The wire form of one field error of the mapper: [value] never set. *)
Definition wire_detail (d : ValidationErrorDetail) : Dumped :=
  DDict
    ([ ("field", DVal (VStr (field d)));
       ("message", DVal (VStr (message d)));
       ("type", DVal (VStr (error_type d))) ]
     ++ match constraint d with
        | Some c => [("constraint", DVal (VStr c))]
        | None => []
        end).

(** ** Registering client patterns *)

(** [d[key] = v] on a dict kept as an association list: an existing key keeps
    its place and takes the new value, a new key goes to the end. *)
Fixpoint dict_set {V : Type} (key : string) (v : V) (d : list (string * V))
  : list (string * V) :=
  match d with
  | [] => [(key, v)]
  | (k, old) :: rest =>
      if String.eqb k key then (k, v) :: rest
      else (k, old) :: dict_set key v rest
  end.

(** [LegacyClientDetector.register_legacy_client]; the client id is only
    logged. *)
Definition register_legacy_client (self : LegacyClientDetector)
    (client_id pattern : string) (tier_ : ClientTier) : LegacyClientDetector := {|
  legacy_user_agents :=
    dict_set pattern {| version_max := None; tier := tier_ |}
             (legacy_user_agents self);
  modern_user_agents := modern_user_agents self;
  legacy_accept_headers := legacy_accept_headers self;
  rfc7807_accept_headers := rfc7807_accept_headers self
|}.

(** [LegacyClientDetector.register_modern_client] *)
Definition register_modern_client (self : LegacyClientDetector)
    (pattern : string) (tier_ : ClientTier) : LegacyClientDetector := {|
  legacy_user_agents := legacy_user_agents self;
  modern_user_agents := dict_set pattern tier_ (modern_user_agents self);
  legacy_accept_headers := legacy_accept_headers self;
  rfc7807_accept_headers := rfc7807_accept_headers self
|}.

(** The detectors a program can hold: the initial one and what the two
    registration methods make of it. *)
Inductive registered : LegacyClientDetector → Prop :=
  | registered_init : registered LegacyClientDetector_init
  | registered_legacy d client_id pattern tier_ :
      registered d →
      registered (register_legacy_client d client_id pattern tier_)
  | registered_modern d pattern tier_ :
      registered d → registered (register_modern_client d pattern tier_).

(** Every legacy pattern that carries a [version_max] has the legacy tier. *)
Definition versioned_are_legacy (d : LegacyClientDetector) : Prop :=
  Forall (fun kc => is_Some (version_max kc.2) → tier kc.2 = LEGACY)
         (legacy_user_agents d).

(** The request asks for RFC 7807 in its [Accept] header. *)
Definition asks_rfc7807 (d : LegacyClientDetector)
    (accept_header : option string) : bool :=
  given accept_header && accepts_rfc7807 d (default EmptyString accept_header).

(** ** Format choice *)

(** The user's preference is taken: it is given and allowed. *)
Definition preference_taken (self : ProblemDetailsConfigurationManager)
    (user_preference : option ResponseFormat) : Prop :=
  ∃ p, user_preference = Some p ∧ p ∈ allowed_formats (config self).

(** The [Accept] header names the RFC 7807 media type. *)
Definition names_problem_json (accept_header : option string) : bool :=
  match accept_header with
  | Some h => Py.contains "application/problem+json" h
  | None => false
  end.

(** A manager whose configuration switches RFC 7807 off altogether. *)
Definition switched_off_manager : ProblemDetailsConfigurationManager :=
  manager_with (ProblemDetailsConfig_default DISABLED false)
               LegacyClientDetector_init ∅.

(** ** Response format converters *)

(** A converted response: the members of the problem, and for HATEOAS the
    nested link objects. *)
#[local] Unset Elimination Schemes.
Inductive Payload : Type :=
  | PVal (v : PyVal)
  | PDict (d : list (string * Payload)).
#[local] Set Elimination Schemes.

(** [ResponseFormatConverter.to_legacy_fastapi] *)
Definition to_legacy_fastapi (problem_details : gmap string PyVal)
  : gmap string PyVal :=
  {[ "detail" :=
       default (VStr "An error occurred") (problem_details !! "detail");
     "status_code" := default (VInt 500) (problem_details !! "status");
     "error_type" := default VNone (problem_details !! "type") ]}.

(** [ResponseFormatConverter.to_simple_json] *)
Definition to_simple_json (problem_details : gmap string PyVal)
  : gmap string PyVal :=
  {[ "status" := default (VInt 500) (problem_details !! "status");
     "message" :=
       default (VStr "An error occurred") (problem_details !! "detail") ]}.

(** [ResponseFormatConverter.to_hateoas] *)
Definition to_hateoas (problem_details : gmap string PyVal)
    (instance_url : string) : gmap string Payload :=
  <[ "_links" :=
       PDict
         [ ("self", PDict [("href", PVal (VStr instance_url))]);
           ("help",
            PDict
              [("href",
                PVal (VStr ("https://api.example.com/help/"
                            +:+ py_str (default (VStr "error")
                                          (problem_details !! "type")))))]) ]
  ]> (PVal <$> problem_details).

(** [ResponseFormatConverter.from_legacy_fastapi] *)
Definition from_legacy_fastapi (legacy_response : gmap string PyVal)
  : gmap string PyVal :=
  {[ "type" :=
       default (VStr "https://httpwg.org/specs/rfc7807#error")
               (legacy_response !! "error_type");
     "title" := VStr "API Error";
     "status" := default (VInt 500) (legacy_response !! "status_code");
     "detail" :=
       default (VStr "An error occurred") (legacy_response !! "detail") ]}.

(** [ProblemDetailsConfigurationManager.convert_response] *)
Definition convert_response (problem_details : gmap string PyVal)
    (target_format : ResponseFormat) (instance_url : option string)
  : gmap string Payload :=
  if bool_decide (target_format = RFC7807) then PVal <$> problem_details
  else if bool_decide (target_format = LEGACY_FASTAPI) then
    PVal <$> to_legacy_fastapi problem_details
  else if bool_decide (target_format = SIMPLE_JSON) then
    PVal <$> to_simple_json problem_details
  else if bool_decide (target_format = HATEOAS) then
    to_hateoas problem_details
      (if given instance_url then default EmptyString instance_url else "/")
  else PVal <$> problem_details.

(** ** Deprecation *)

(** The deprecation fields of [ProblemDetailsConfig]; a [datetime] is an
    instant on the clock's time line. *)
Record DeprecationConfig : Type := {
  deprecation_enabled : bool;
  deprecation_date : option Z;
  migration_guide_url : option string
}.

Definition dquote : string := String "034"%char EmptyString.

Section deprecation.

(** [datetime.isoformat]. *)
Variable isoformat : Z → string.

(** [is_deprecated]; [now] is [datetime.now()].  A [datetime] is always
    truthy, so [not deprecation_date] asks for [None]. *)
Definition is_deprecated (cfg : DeprecationConfig) (now : Z) : bool :=
  if negb (deprecation_enabled cfg) then false
  else
    match deprecation_date cfg with
    | None => false
    | Some date => (date <=? now)%Z
    end.

(** [get_deprecation_header] *)
Definition get_deprecation_header (cfg : DeprecationConfig) (now : Z)
  : option string :=
  if negb (is_deprecated cfg now) then None
  else
    let header := "true" in
    let header :=
      match deprecation_date cfg with
      | Some date =>
          header +:+ "; date=" +:+ dquote +:+ isoformat date +:+ dquote
      | None => header
      end in
    let header :=
      if given (migration_guide_url cfg) then
        header +:+ "; link=" +:+ dquote
        +:+ default EmptyString (migration_guide_url cfg) +:+ dquote
      else header in
    Some header.

End deprecation.

(** ** Decision log and statistics *)

(** [.value] of the two enumerations that are logged. *)
Definition ClientTier_value (t : ClientTier) : string :=
  match t with
  | LEGACY => "legacy" | COMPATIBLE => "compatible"
  | MODERN => "modern" | UNKNOWN => "unknown"
  end.

Definition ResponseFormat_value (f : ResponseFormat) : string :=
  match f with
  | RFC7807 => "rfc7807" | LEGACY_FASTAPI => "legacy_fastapi"
  | SIMPLE_JSON => "simple_json" | HATEOAS => "hateoas" | CUSTOM => "custom"
  end.

(** One entry of [_format_decision_log]: a dict with these five keys. *)
Record Decision : Type := {
  decision_timestamp : string;
  decision_client_id : option string;
  decision_client_tier : string;
  decision_format : string;
  decision_reason : string
}.

(** [log_format_decision] on the log; [now_iso] is
    [datetime.now().isoformat()]. *)
Definition log_format_decision (_format_decision_log : list Decision)
    (now_iso : string) (client_id : option string) (client_tier : ClientTier)
    (chosen_format : ResponseFormat) (reason : string) : list Decision :=
  _format_decision_log
  ++ [ {| decision_timestamp := now_iso;
          decision_client_id := client_id;
          decision_client_tier := ClientTier_value client_tier;
          decision_format := ResponseFormat_value chosen_format;
          decision_reason := reason |} ].

(** [counts[key] = counts.get(key, 0) + 1] *)
Definition bump (key : string) (counts : gmap string nat) : gmap string nat :=
  <[ key := default 0 (counts !! key) + 1 ]> counts.

(** What [get_statistics] returns: only a zero total for an empty log, else
    the total, the two tallies and the last ten entries. *)
Inductive Statistics : Type :=
  | NoDecisions
  | Decisions (total_decisions : nat) (formats client_tiers : gmap string nat)
              (recent_decisions : list Decision).

(** [get_statistics] *)
Definition get_statistics (_format_decision_log : list Decision) : Statistics :=
  match _format_decision_log with
  | [] => NoDecisions
  | _ =>
      let '(format_counts, tier_counts) :=
        fold_left
          (fun '(format_counts, tier_counts) decision =>
             (bump (decision_format decision) format_counts,
              bump (decision_client_tier decision) tier_counts))
          _format_decision_log (∅, ∅) in
      Decisions (length _format_decision_log) format_counts tier_counts
        (drop (length _format_decision_log - 10) _format_decision_log)
  end.

(** How many entries of the log have the value [key] under [proj]. *)
Definition occurrences (proj : Decision → string) (key : string)
    (log : list Decision) : nat :=
  length (filter (fun decision => proj decision = key) log).

(** A log of two decisions. *)
Definition two_decisions : list Decision :=
  log_format_decision
    (log_format_decision [] "2026-01-01T00:00:00" (Some "client_old_1")
       LEGACY LEGACY_FASTAPI "legacy client")
    "2026-01-01T00:00:01" None MODERN RFC7807 "accept header".

(** ** Configuration from the environment *)

(** [str.upper] on one character.  The sharp s becomes two letters; the
    micro sign and the y with diaeresis have their capitals above U+00FF,
    outside the characters modelled, which is [None]. *)
Definition upper_char (c : ascii) : option string :=
  let n := nat_of_ascii c in
  if (((97 <=? n) && (n <=? 122))
      || ((224 <=? n) && (n <=? 254) && negb (n =? 247)))%nat
  then Some (String (ascii_of_nat (n - 32)) EmptyString)
  else if (n =? 223)%nat then Some "SS"
  else if ((n =? 181) || (n =? 255))%nat then None
  else Some (String c EmptyString).

(** [s.upper()] *)
Fixpoint py_upper (s : string) : option string :=
  match s with
  | EmptyString => Some EmptyString
  | String c s' =>
      u ← upper_char c; r ← py_upper s'; Some (u +:+ r)
  end.

(** [RolloutMode[name]]; [None] is [KeyError]. *)
Definition RolloutMode_by_name (name : string) : option RolloutMode :=
  if String.eqb name "DISABLED" then Some DISABLED
  else if String.eqb name "LEGACY_ONLY" then Some LEGACY_ONLY
  else if String.eqb name "HYBRID" then Some HYBRID
  else if String.eqb name "OPT_IN" then Some OPT_IN
  else if String.eqb name "OPT_OUT" then Some OPT_OUT
  else if String.eqb name "ENABLED" then Some ENABLED
  else None.

(** [.value] of a rollout mode. *)
Definition RolloutMode_value (m : RolloutMode) : string :=
  match m with
  | DISABLED => "disabled" | LEGACY_ONLY => "legacy_only"
  | HYBRID => "hybrid" | OPT_IN => "opt_in" | OPT_OUT => "opt_out"
  | ENABLED => "enabled"
  end.

(** [os.getenv(name, default).lower() == "true"] *)
Definition env_flag (env : gmap string string) (name default_ : string)
  : bool :=
  String.eqb (Py.lower (default default_ (env !! name))) "true".

(** [configure_from_env] on the environment [env]: the configuration
    afterwards and the new value of its [expose_internal_errors] field. *)
Definition configure_from_env (env : gmap string string)
    (cfg : ProblemDetailsConfig) : ProblemDetailsConfig * bool :=
  let env_mode := py_upper (default "HYBRID" (env !! "RFC7807_MODE")) in
  let mode_ :=
    match env_mode ≫= RolloutMode_by_name with
    | Some m => m
    | None => mode cfg
    end in
  ({| mode := mode_;
      enabled := env_flag env "RFC7807_ENABLED" "true";
      support_legacy := env_flag env "RFC7807_SUPPORT_LEGACY" "true";
      detect_legacy_clients := detect_legacy_clients cfg;
      legacy_format := legacy_format cfg;
      respect_accept_header := respect_accept_header cfg;
      default_format := default_format cfg;
      allowed_formats := allowed_formats cfg;
      cache_detection := cache_detection cfg;
      detection_cache_ttl := detection_cache_ttl cfg |},
   env_flag env "RFC7807_EXPOSE_INTERNAL" "false").

(** * Properties *)

(** ** JSON Pointer encoder *)

Lemma fold_left_snoc {A B} (f : A → B) (l : list A) (acc : list B) :
  fold_left (fun acc x => acc ++ [f x]) l acc = acc ++ map f l.
Proof.
  revert acc. induction l as [|x l IH]; intros acc; simpl.
  - by rewrite app_nil_r.
  - rewrite IH. by rewrite <- app_assoc.
Qed.

(** The two replacements in the order of the source amount to escaping every
    character on its own: the [~] that the first pass emits is never followed
    by a [/], so the second pass leaves the first one's output alone. *)
Lemma escape_segment_chars (s : string) : escape_segment s = escape_chars s.
Proof.
  unfold escape_segment. induction s as [|c s IH]; [done|].
  cbn [escape_chars]. rewrite <- IH. unfold escape_char.
  destruct (Ascii.eqb_spec c "~") as [->|Htilde]; [reflexivity|].
  cbn [Py.replace]. apply Ascii.eqb_neq in Htilde. rewrite Htilde.
  cbn [Py.replace]. by destruct (Ascii.eqb c "/").
Qed.

(** With the two passes swapped a [/] would be escaped twice. *)
Example escape_order_matters :
  Py.replace "~" "~0" (Py.replace "/" "~1" "c/d") = "c~01d"
  ∧ escape_segment "c/d" = "c~1d".
Proof. split; reflexivity. Qed.


(** ** The two models: what a successful construction fixes *)

Lemma str_len_Some (lo hi : nat) (s s' : string) :
  Field.str_len lo hi s = Some s' → s' = s.
Proof. unfold Field.str_len. by destruct (_ && _); intros; simplify_eq. Qed.

Lemma ValidationErrorDetail_init_ok
    (f m : string) (t v : PyVal) (c : option string)
    (d : ValidationErrorDetail) :
  ValidationErrorDetail_init f m t v c = Ok d →
  value d = v ∧ constraint d = c ∧ message d = m
  ∧ validate_non_empty f = Some (field d).
Proof.
  unfold ValidationErrorDetail_init, Field.opt_str_max. cbv zeta.
  intros H.
  destruct (Field.str_len 1 256 f) as [f'|] eqn:Hf; [|done].
  apply str_len_Some in Hf as ->.
  simpl in H.
  destruct (validate_non_empty f) as [f''|]; [|done].
  destruct (Field.str_len 1 512 m) as [m'|] eqn:Hm; [|done].
  apply str_len_Some in Hm as ->.
  destruct (_ ≫= _) as [t'|]; [|done].
  destruct c as [c|]; [destruct (_ <=? _)%nat|]; by simplify_eq.
Qed.

Lemma set_timestamp_if_needed_errors utcnow self :
  errors (set_timestamp_if_needed utcnow self) = errors self
  ∧ error_count (set_timestamp_if_needed utcnow self) = error_count self.
Proof.
  unfold set_timestamp_if_needed.
  by destruct (timestamp self), (request_id self).
Qed.

Lemma validate_error_count_matches_errors_ok self :
  errors (validate_error_count_matches_errors self) = errors self
  ∧ error_count (validate_error_count_matches_errors self)
    = Z.of_nat (length (errors self)).
Proof.
  unfold validate_error_count_matches_errors.
  destruct (_ =? _)%Z eqn:H; simpl; [|done].
  split; [done|]. by apply Z.eqb_eq in H.
Qed.

(** The error list of a constructed document is the one passed, it is not
    empty, and the count is the length of the list. *)
Lemma ValidationProblemDetails_init_ok utcnow kw doc :
  ValidationProblemDetails_init utcnow kw = Ok doc →
  errors doc = errors kw ∧ errors kw ≠ []
  ∧ error_count doc = Z.of_nat (length (errors doc)).
Proof.
  unfold ValidationProblemDetails_init. cbv zeta. intros H.
  destruct (_ ≫= _) as [pt|] in H; [|done].
  destruct (_ ≫= _) as [ti|] in H; [|done].
  destruct (_ ≫= _) as [st|] in H; [|done].
  destruct (_ ≫= _) as [de|] in H; [|done].
  destruct (Field.opt_str_max _ _) as [ins|] in H; [|done].
  destruct (_ ≫= _) as [errs|] eqn:Herrs in H; [|done].
  destruct (Field.int_ge _ _) as [cnt|] in H; [|done].
  injection H as <-.
  destruct (validate_error_count_matches_errors_ok
              (set_timestamp_if_needed utcnow
                 {| problem_type := pt; title := ti; status := st;
                    detail := de; instance := ins;
                    error_code := error_code kw; timestamp := timestamp kw;
                    request_id := request_id kw; errors := errs;
                    error_count := cnt; error_source := error_source kw |}))
    as [He Hc].
  rewrite Hc, He.
  destruct (set_timestamp_if_needed_errors utcnow
              {| problem_type := pt; title := ti; status := st;
                 detail := de; instance := ins;
                 error_code := error_code kw; timestamp := timestamp kw;
                 request_id := request_id kw; errors := errs;
                 error_count := cnt; error_source := error_source kw |})
    as [He' _].
  rewrite He'. simpl.
  unfold ensure_non_empty_errors, errors_min_length in Herrs.
  destruct (errors kw) as [|e l] eqn:Hl; [done|].
  simpl in Herrs. by simplify_eq.
Qed.

(** ** Validation error mapper *)

(** The loop keeps what it has collected and adds one detail per failure. *)
Lemma map_errors_ok (error_list : list ErrorDict)
    (acc out : list ValidationErrorDetail) :
  map_errors error_list acc = Ok out →
  ∃ ds, out = acc ++ ds
        ∧ Forall2 (fun error d => map_error error = Ok d) error_list ds.
Proof.
  revert acc. induction error_list as [|error rest IH]; intros acc H; simpl in H.
  - exists []. simplify_eq. split; [by rewrite app_nil_r | constructor].
  - destruct (map_error error) as [d|e] eqn:Hd; [|done].
    apply IH in H as (ds & -> & Hds).
    exists (d :: ds). split; [by rewrite <- app_assoc | by constructor].
Qed.

(** A document returned by the mapper holds one detail per failure, each the
    result of the loop body on that failure, in input order; the failure list
    was not empty. *)
Lemma build_from_pydantic_error_ok
    utcnow error_list instance_ problem_type_ doc :
  build_from_pydantic_error utcnow error_list instance_ problem_type_ = Ok doc →
  Forall2 (fun error d => map_error error = Ok d) error_list (errors doc)
  ∧ error_list ≠ []
  ∧ error_count doc = Z.of_nat (length (errors doc)).
Proof.
  unfold build_from_pydantic_error. intros H.
  destruct (map_errors error_list []) as [ves|e] eqn:Hves; [|done].
  apply map_errors_ok in Hves as (ds & -> & Hds). simpl in *.
  apply ValidationProblemDetails_init_ok in H as (He & Hne & Hc).
  simpl in He, Hne. rewrite He in Hc |- *. split_and!; [done| |done].
  intros ->. by inversion Hds; subst.
Qed.

(** C1. The specification and the tests ([test_empty_error_list]) expect, for
    an empty failure list, a document with no errors and the detail
    "0 validation errors occurred".  The code returns none: whatever the
    instance and the problem type, [ensure_non_empty_errors] rejects the empty
    [errors] list and the constructor raises; the detail text it had computed
    is the expected one. *)
Theorem C1_empty_list_raises
    (utcnow : Z) (instance_ : option string) (problem_type_ : string) :
  is_ok (build_from_pydantic_error utcnow [] instance_ problem_type_) = false
  ∧ build_from_pydantic_error utcnow [] None default_problem_type
    = Raise (ValidationError ["errors"; "error_count"])
  ∧ detail_text 0 = "0 validation errors occurred".
Proof.
  split; [|split; reflexivity].
  destruct (build_from_pydantic_error utcnow [] instance_ problem_type_)
    as [doc|e] eqn:H; [|done].
  by apply build_from_pydantic_error_ok in H as (_ & Hne & _).
Qed.

(** C3. Every document the mapper returns, and every
    [ValidationProblemDetails] a constructor call returns (whatever
    [error_count] the caller passed), has [error_count == len(errors)]. *)
Theorem C3_error_count_matches_errors (doc : ValidationProblemDetails) :
  (∃ utcnow error_list instance_ problem_type_,
      build_from_pydantic_error utcnow error_list instance_ problem_type_
      = Ok doc)
  ∨ (∃ utcnow kw, ValidationProblemDetails_init utcnow kw = Ok doc) →
  error_count doc = Z.of_nat (length (errors doc)).
Proof.
  intros [(utcnow & F & i & p & H)|(utcnow & kw & H)].
  - by apply build_from_pydantic_error_ok in H as (_ & _ & Hc).
  - by apply ValidationProblemDetails_init_ok in H as (_ & _ & Hc).
Qed.

Lemma C3_error_count_matches_errors_witness :
  ValidationProblemDetails_init 0 mismatched_kwargs = Ok mismatched_document
  ∧ error_count mismatched_kwargs = 5%Z
  ∧ error_count mismatched_document
    = Z.of_nat (length (errors mismatched_document)).
Proof.
  split; [reflexivity|]. split; [reflexivity|].
  apply (C3_error_count_matches_errors mismatched_document).
  right. exists 0%Z, mismatched_kwargs. reflexivity.
Defined.

(** C4. The specification and the tests ([test_type_field_with_none_value],
    [test_empty_loc_tuple], [test_missing_loc_field]) expect no exception for
    a null kind or an empty location.  The code raises on both:
    [error.get("type", ...)] hands a present [None] on to the model, which
    takes only a string, and the empty pointer of an empty location fails the
    [min_length=1] of [field].  An absent kind does become
    ["validation.error"], and a non-string message is absorbed by [str]. *)
Theorem C4_null_kind_and_empty_loc_raise
    (utcnow : Z) (instance_ : option string) (problem_type_ : string) :
  build_from_pydantic_error utcnow [null_kind_error] instance_ problem_type_
  = Raise (ValidationError ["error_type"])
  ∧ build_from_pydantic_error utcnow [empty_loc_error] instance_ problem_type_
    = Raise (ValidationError ["field"])
  ∧ _loc_to_json_pointer (default [] (loc empty_loc_error)) = ""
  ∧ map_error absent_kind_error
    = Ok {| field := "/field"; message := "Error message";
            error_type := "validation.error"; value := VNone;
            constraint := None |}
  ∧ map_error numeric_msg_error
    = Ok {| field := "/field"; message := "42"; error_type := "error";
            value := VNone; constraint := None |}.
Proof. repeat split; reflexivity. Qed.

(** The loop of [constraint_parts] selects exactly the pairs of
    [selected_pair], in the order of the key list. *)
Lemma constraint_parts_fold (ctx_ : gmap string PyVal) (keys : list string)
    (acc : list string) :
  fold_left
    (fun constraint_parts key =>
       match ctx_ !! key with
       | Some value_ =>
           if is_int_or_str value_
              && (String.length (py_str value_) <? 100)%nat
           then constraint_parts ++ [key +:+ "=" +:+ py_str value_]
           else constraint_parts
       | None => constraint_parts
       end)
    keys acc
  = acc ++ omap (selected_pair ctx_) keys.
Proof.
  revert acc. induction keys as [|key keys IH]; intros acc; simpl.
  - by rewrite app_nil_r.
  - rewrite IH. unfold selected_pair at 2.
    destruct (ctx_ !! key) as [v|]; simpl; [|done].
    destruct (_ && _); simpl; [|done]. by rewrite <- app_assoc.
Qed.

Lemma selected_pair_empty (key : string) : selected_pair ∅ key = None.
Proof. unfold selected_pair. by rewrite lookup_empty. Qed.

(** The guard on an empty context changes nothing: an empty context selects
    no pair. *)
Lemma build_constraint_summary (ctx_ : gmap string PyVal) :
  build_constraint ctx_ = constraint_summary ctx_.
Proof.
  unfold build_constraint, constraint_summary, constraint_parts.
  rewrite constraint_parts_fold. simpl app.
  case_bool_decide as Hctx; [done|].
  subst ctx_.
  unfold constraint_keys. simpl. by rewrite !selected_pair_empty.
Qed.

(** C5 as amended.  In every document the mapper returns, the constraint of
    each field error is built from the allow-listed keys only: each of
    [min_length], [max_length], [ge], [le], [pattern] that the failure's
    context holds with an [int] or [str] value whose string form is shorter
    than 100 characters gives ["key=value"], the pairs are joined with
    [", "], every other key is skipped, and the constraint is null when no
    pair is left (also when there is no context). *)
Theorem C5_constraint_from_allow_list
    (utcnow : Z) (error_list : list ErrorDict) (instance_ : option string)
    (problem_type_ : string) (doc : ValidationProblemDetails) :
  build_from_pydantic_error utcnow error_list instance_ problem_type_ = Ok doc →
  map constraint (errors doc)
  = map (fun error => constraint_summary (default ∅ (ctx error))) error_list.
Proof.
  intros H. apply build_from_pydantic_error_ok in H as (H & _ & _).
  induction H as [|error d F ds Hd _ IH]; [done|].
  simpl. rewrite IH. f_equal.
  unfold map_error in Hd.
  apply ValidationErrorDetail_init_ok in Hd as (_ & Hc & _).
  by rewrite Hc, build_constraint_summary.
Qed.

Lemma C5_constraint_from_allow_list_witness :
  build_from_pydantic_error 0 [secret_error; float_bound_error] None
    default_problem_type
  = Ok two_error_document
  ∧ map constraint (errors two_error_document)
    = map (fun error => constraint_summary (default ∅ (ctx error)))
          [secret_error; float_bound_error].
Proof.
  split; [reflexivity|].
  apply (C5_constraint_from_allow_list 0 [secret_error; float_bound_error]
           None default_problem_type two_error_document).
  reflexivity.
Defined.

(** C5 as stated fails on a float bound: the context [{"ge": 0.5}] holds an
    allow-listed key with a short string form, so the claimed summary is
    ["ge=0.5"], but the returned document has a null constraint. *)
Lemma C5_float_bound_counterexample :
  constraints_of
    (build_from_pydantic_error 0 [float_bound_error] None default_problem_type)
  ≠ Some [constraint_claimed (default ∅ (ctx float_bound_error))].
Proof. vm_compute. discriminate. Qed.

(** C6. In every document the mapper returns, every field error has a null
    [value], whatever the failures' contexts hold. *)
Theorem C6_value_always_null
    (utcnow : Z) (error_list : list ErrorDict) (instance_ : option string)
    (problem_type_ : string) (doc : ValidationProblemDetails) :
  build_from_pydantic_error utcnow error_list instance_ problem_type_ = Ok doc →
  Forall (fun d => value d = VNone) (errors doc).
Proof.
  intros H. apply build_from_pydantic_error_ok in H as (H & _ & _).
  induction H as [|error d F ds Hd _ IH]; constructor; [|done].
  unfold map_error in Hd.
  by apply ValidationErrorDetail_init_ok in Hd as (Hv & _).
Qed.

Lemma C6_value_always_null_witness :
  build_from_pydantic_error 0 [secret_error; float_bound_error] None
    default_problem_type
  = Ok two_error_document
  ∧ Forall (fun d => value d = VNone) (errors two_error_document).
Proof.
  split; [reflexivity|].
  apply (C6_value_always_null 0 [secret_error; float_bound_error]
           None default_problem_type two_error_document).
  reflexivity.
Defined.

(** ** Rollout decision and format chooser *)

(** C7. [should_use_rfc7807] is false when the configuration is not enabled;
    otherwise the rollout mode decides: disabled and legacy_only give false,
    hybrid and opt_out give "tier is not legacy", opt_in gives "tier is
    modern", enabled gives true. *)
Theorem C7_should_use_rfc7807_table
    (self : ProblemDetailsConfigurationManager) (client_tier : ClientTier) :
  should_use_rfc7807 self client_tier
  = if enabled (config self) then
      match mode (config self) with
      | DISABLED | LEGACY_ONLY => false
      | HYBRID | OPT_OUT => bool_decide (client_tier ≠ LEGACY)
      | OPT_IN => bool_decide (client_tier = MODERN)
      | ENABLED => true
      end
    else false.
Proof.
  unfold should_use_rfc7807.
  destruct (enabled (config self)); [|reflexivity].
  destruct (mode (config self)); reflexivity.
Qed.

(** Without preference and header the chooser follows the rollout decision. *)
Lemma choose_format_plain
    (self : ProblemDetailsConfigurationManager) (client_tier : ClientTier) :
  choose_format self client_tier None None
  = if should_use_rfc7807 self client_tier then RFC7807
    else legacy_format (config self).
Proof.
  unfold choose_format. simpl. by rewrite andb_false_r.
Qed.

(** C8. At the default configuration with [enabled=true], no user preference
    and no accept header: in hybrid mode a legacy client gets the configured
    legacy format and a modern client RFC 7807; in enabled mode every tier
    gets RFC 7807; in legacy_only mode no tier gets RFC 7807. *)
Theorem C8_choose_format_by_mode
    (d : LegacyClientDetector) (cache : gmap string ClientTier) :
  choose_format (manager_at HYBRID d cache) LEGACY None None
  = legacy_format (config (manager_at HYBRID d cache))
  ∧ choose_format (manager_at HYBRID d cache) MODERN None None = RFC7807
  ∧ (∀ t, choose_format (manager_at ENABLED d cache) t None None = RFC7807)
  ∧ (∀ t, choose_format (manager_at LEGACY_ONLY d cache) t None None
          ≠ RFC7807).
Proof.
  repeat split; try reflexivity; intros t; rewrite choose_format_plain;
    destruct t; done.
Qed.

(** ** Client-tier cache *)

(** C10. With [detect_legacy_clients] off, [get_client_tier] answers modern
    for all four inputs and hands the manager back as it was: the cache is
    neither consulted (the answer is the same for every cache) nor written. *)
Theorem C10_detection_off_is_modern
    (self : ProblemDetailsConfigurationManager)
    (user_agent accept_header client_id api_version : option string) :
  detect_legacy_clients (config self) = false →
  get_client_tier self user_agent accept_header client_id api_version
  = (MODERN, self).
Proof. intros H. unfold get_client_tier. by rewrite H. Qed.

Lemma C10_detection_off_is_modern_witness :
  detect_legacy_clients (config detection_off_manager) = false
  ∧ detect (detector detection_off_manager) (Some "old-client") None None None
    = LEGACY
  ∧ get_client_tier detection_off_manager (Some "old-client") None None None
    = (MODERN, detection_off_manager).
Proof.
  split; [reflexivity|]. split; [reflexivity|].
  apply (C10_detection_off_is_modern detection_off_manager); reflexivity.
Defined.

Section client_cache.

Variable cfg : ProblemDetailsConfig.
Variable d : LegacyClientDetector.
Hypothesis detection_on : detect_legacy_clients cfg = true.
Hypothesis caching_on : cache_detection cfg = true.

(** One step of the cache: a hit answers from the cache and changes nothing,
    a miss answers with [detect] and records it under the key. *)
Lemma call_tier_cached (cache : gmap string ClientTier) (c : Call) :
  call_tier (manager_with cfg d cache) c
  = match cache !! call_key c with
    | Some t => (t, manager_with cfg d cache)
    | None =>
        (call_detect d c,
         manager_with cfg d (<[call_key c := call_detect d c]> cache))
    end.
Proof.
  destruct c as [[[ua ah] cid] av].
  unfold call_tier, get_client_tier, call_key, call_detect, manager_with.
  simpl. rewrite detection_on, caching_on. simpl. by destruct (cache !! _).
Qed.

(** From a cache that holds only right answers for the calls to come, and
    with no disagreement under one key among them, every call returns what a
    direct [detect] returns. *)
Lemma run_calls_transparent (calls : list Call)
    (cache : gmap string ClientTier) :
  keys_agree d calls →
  (∀ c t, c ∈ calls → cache !! call_key c = Some t → call_detect d c = t) →
  (run_calls (manager_with cfg d cache) calls).1 = map (call_detect d) calls.
Proof.
  intros Hpairs. revert cache.
  induction Hpairs as [|c rest Hhead _ IH]; intros cache Hinv; [done|].
  cbn [run_calls map]. rewrite call_tier_cached.
  destruct (cache !! call_key c) as [t|] eqn:Hlook.
  - specialize (IH cache).
    destruct (run_calls _ rest) as [ts self''] eqn:Hrun. simpl in *.
    f_equal.
    + symmetry. apply (Hinv c t); [set_solver | done].
    + apply IH. intros c' t' Hin. apply Hinv. set_solver.
  - specialize (IH (<[call_key c := call_detect d c]> cache)).
    destruct (run_calls _ rest) as [ts self''] eqn:Hrun. simpl in *.
    f_equal. apply IH. intros c' t' Hin Hlook'.
    destruct (decide (call_key c = call_key c')) as [Heq|Hne].
    + rewrite <- Heq, lookup_insert_eq in Hlook'. simplify_eq.
      rewrite Forall_forall in Hhead. symmetry. by apply Hhead.
    + rewrite lookup_insert_ne in Hlook' by done.
      apply Hinv; [set_solver | done].
Qed.

(** On a manager with an empty cache, a sequence of calls without
    disagreement under one key gets exactly what [detect] would have said. *)
Lemma cache_transparent_without_collisions (calls : list Call) :
  keys_agree d calls →
  (run_calls (manager_with cfg d ∅) calls).1 = map (call_detect d) calls.
Proof.
  intros Hpairs. apply run_calls_transparent; [done|].
  intros c t _ H. by rewrite lookup_empty in H.
Qed.

End client_cache.

(** C9. The cache is meant to answer as [detect] would, but its key is the
    digest of the three strings written one after the other, without a
    separator (and without [api_version]).  Two requests that split the text
    ["old-client"] differently between [User-Agent] and [Accept] share a key:
    the first is detected as legacy and cached, the second, which a direct
    [detect] classifies as unknown, is answered legacy from the cache. *)
Theorem C9_cache_key_collision :
  map call_key colliding_calls
  = [ "ea9dae2a93525f7538430d892b458e5e";
      "ea9dae2a93525f7538430d892b458e5e" ]
  ∧ map (call_detect LegacyClientDetector_init) colliding_calls
    = [LEGACY; UNKNOWN]
  ∧ (run_calls
       (ProblemDetailsConfigurationManager_init
          (ProblemDetailsConfig_default HYBRID true))
       colliding_calls).1
    = [LEGACY; LEGACY].
Proof. repeat split; vm_compute; reflexivity. Qed.

(** * Further properties *)

(** ** JSON Pointer encoder: the pointer determines the path *)

Lemma string_app_cons (x : ascii) (a b : string) :
  String x a +:+ b = String x (a +:+ b).
Proof. reflexivity. Qed.

Lemma string_app_assoc (a b c : string) : (a +:+ b) +:+ c = a +:+ (b +:+ c).
Proof.
  induction a as [|x a IH]; [done|]. rewrite !string_app_cons. by f_equal.
Qed.

Lemma string_app_nil_r (a : string) : a +:+ "" = a.
Proof.
  induction a as [|x a IH]; [done|]. rewrite string_app_cons. by f_equal.
Qed.

Lemma string_app_length (a b : string) :
  String.length (a +:+ b) = String.length a + String.length b.
Proof.
  induction a as [|x a IH]; [done|]. rewrite string_app_cons. simpl.
  by rewrite IH.
Qed.

Lemma count_char_app (c : ascii) (a b : string) :
  count_char c (a +:+ b) = count_char c a + count_char c b.
Proof.
  induction a as [|x a IH]; [done|].
  rewrite string_app_cons. cbn [count_char]. rewrite IH. lia.
Qed.

(** An escaped segment holds no slash. *)
Lemma escape_chars_no_slash (s : string) : count_char "/" (escape_chars s) = 0.
Proof.
  induction s as [|c s IH]; [done|].
  cbn [escape_chars]. rewrite count_char_app, IH. unfold escape_char.
  destruct (Ascii.eqb c "~"); [done|].
  destruct (Ascii.eqb c "/") eqn:H; [done|]. simpl. by rewrite H.
Qed.

Lemma unescape_tilde (r : string) :
  unescape (String "~" (String "0" r)) = String "~" (unescape r)
  ∧ unescape (String "~" (String "1" r)) = String "/" (unescape r).
Proof. split; reflexivity. Qed.

Lemma unescape_plain (c : ascii) (r : string) :
  Ascii.eqb c "~" = false → unescape (String c r) = String c (unescape r).
Proof. intros H. cbn [unescape]. by rewrite H. Qed.

Lemma unescape_escape_chars (s : string) : unescape (escape_chars s) = s.
Proof.
  induction s as [|c s IH]; [done|].
  cbn [escape_chars]. unfold escape_char.
  destruct (Ascii.eqb_spec c "~") as [->|Htilde].
  { change ("~0" +:+ ?r) with (String "~" (String "0" r)).
    rewrite (proj1 (unescape_tilde _)). by rewrite IH. }
  destruct (Ascii.eqb_spec c "/") as [->|Hslash].
  { change ("~1" +:+ ?r) with (String "~" (String "1" r)).
    rewrite (proj2 (unescape_tilde _)). by rewrite IH. }
  rewrite string_app_cons. change ("" +:+ ?r) with r.
  rewrite unescape_plain by (by apply Ascii.eqb_neq). by rewrite IH.
Qed.

(** Splitting reads a slash-free prefix into the current piece. *)
Lemma split_from_prefix (a cur s : string) :
  count_char "/" a = 0 →
  split_from "/" cur (a +:+ s) = split_from "/" (cur +:+ a) s.
Proof.
  revert cur. induction a as [|c a IH]; intros cur Ha.
  - by rewrite string_app_nil_r.
  - cbn [count_char] in Ha. rewrite string_app_cons. cbn [split_from].
    destruct (Ascii.eqb c "/") eqn:Hc; [done|].
    rewrite IH by done. f_equal.
    by rewrite string_app_assoc.
Qed.

(** Splitting undoes joining, for pieces without a slash. *)
Lemma split_concat (x : string) (l : list string) :
  Forall (fun s => count_char "/" s = 0) (x :: l) →
  split "/" (String.concat "/" (x :: l)) = x :: l.
Proof.
  unfold split. revert x. induction l as [|y l IH]; intros x Hall.
  - simpl. inversion Hall; subst.
    rewrite <- (string_app_nil_r x) at 1.
    by rewrite split_from_prefix.
  - inversion Hall as [|? ? Hx Hrest]; subst.
    change (String.concat "/" (x :: y :: l))
      with (x +:+ String "/" (String.concat "/" (y :: l))).
    rewrite split_from_prefix by done. simpl. f_equal. by apply IH.
Qed.

(** The pointer of a non-empty location, segment by segment. *)
Lemma pointer_of_segments (segment : PyVal) (rest : list PyVal) :
  _loc_to_json_pointer (segment :: rest)
  = String "/"
      (String.concat "/"
         (map (fun seg => escape_chars (py_str seg)) (segment :: rest))).
Proof.
  unfold _loc_to_json_pointer, Py.join.
  change (fold_left _ (segment :: rest) [])
    with (fold_left
            (fun acc x => acc ++ [escape_segment (py_str x)])
            (segment :: rest) []).
  rewrite (fold_left_snoc (fun x => escape_segment (py_str x))).
  cbn [app]. change ("/" +:+ ?s) with (String "/" s). do 2 f_equal.
  apply map_ext. intros. apply escape_segment_chars.
Qed.

(** Decoding a pointer gives back the string forms of the segments. *)
Lemma decode_pointer_loc (loc_ : list PyVal) :
  decode_pointer (_loc_to_json_pointer loc_) = map py_str loc_.
Proof.
  destruct loc_ as [|segment rest]; [done|].
  rewrite pointer_of_segments. cbn [decode_pointer map].
  rewrite split_concat.
  - change (map unescape
              (map (fun seg => escape_chars (py_str seg)) (segment :: rest))
            = map py_str (segment :: rest)).
    rewrite map_map. apply map_ext. intros. apply unescape_escape_chars.
  - change (Forall (fun s => count_char "/" s = 0)
              (map (fun seg => escape_chars (py_str seg)) (segment :: rest))).
    apply Forall_map, Forall_forall. intros. apply escape_chars_no_slash.
Qed.

(** X1. Two locations with the same pointer have the same segments, as
    strings: the escaping loses nothing, so a client can read the path of a
    field back from [field]. *)
Theorem pointer_determines_segments (loc1 loc2 : list PyVal) :
  _loc_to_json_pointer loc1 = _loc_to_json_pointer loc2 →
  map py_str loc1 = map py_str loc2.
Proof.
  intros H. by rewrite <- (decode_pointer_loc loc1), H, decode_pointer_loc.
Qed.

Lemma pointer_determines_segments_witness :
  _loc_to_json_pointer [VStr "items"; VInt 0]
  = _loc_to_json_pointer [VStr "items"; VStr "0"]
  ∧ map py_str [VStr "items"; VInt 0] = map py_str [VStr "items"; VStr "0"].
Proof.
  split; [reflexivity|].
  apply (pointer_determines_segments [VStr "items"; VInt 0]
           [VStr "items"; VStr "0"]).
  reflexivity.
Defined.



(** ** The two models: every field of a constructed object *)

Lemma length_list_ascii_of_string (s : string) :
  length (list_ascii_of_string s) = String.length s.
Proof. induction s as [|c s IH]; simpl; [done|]. by rewrite IH. Qed.

Lemma length_string_of_list_ascii (l : list ascii) :
  String.length (string_of_list_ascii l) = length l.
Proof. induction l as [|c l IH]; simpl; [done|]. by rewrite IH. Qed.

Lemma drop_space_length (l : list ascii) :
  (length (Py.drop_space l) ≤ length l)%nat.
Proof.
  induction l as [|c l IH]; simpl; [done|].
  destruct (Py.isspace c); simpl; lia.
Qed.

(** Stripping never lengthens a string. *)
Lemma strip_length (s : string) :
  (String.length (Py.strip s) ≤ String.length s)%nat.
Proof.
  unfold Py.strip.
  rewrite length_string_of_list_ascii, length_rev.
  etrans; [apply drop_space_length|].
  rewrite length_rev. etrans; [apply drop_space_length|].
  by rewrite length_list_ascii_of_string.
Qed.

Lemma truthy_length (s : string) :
  Py.truthy s = true ↔ (1 ≤ String.length s)%nat.
Proof. destruct s; simpl; split; (done || lia). Qed.

Lemma non_blank_length (s : string) :
  non_blank s = true → (1 ≤ String.length s)%nat.
Proof.
  unfold non_blank. rewrite truthy_length. pose proof (strip_length s). lia.
Qed.

Lemma str_len_spec (lo hi : nat) (s : string) :
  Field.str_len lo hi s
  = if decide (lo ≤ String.length s ≤ hi)%nat then Some s else None.
Proof.
  unfold Field.str_len.
  destruct (lo <=? String.length s)%nat eqn:H1;
    destruct (String.length s <=? hi)%nat eqn:H2; simpl;
    try apply Nat.leb_le in H1; try apply Nat.leb_le in H2;
    try apply Nat.leb_gt in H1; try apply Nat.leb_gt in H2;
    case_decide; (done || lia).
Qed.

Lemma validate_non_empty_spec (v : string) :
  validate_non_empty v = if non_blank v then Some (Py.strip v) else None.
Proof.
  unfold validate_non_empty, non_blank.
  destruct v as [|c v]; [done|]. simpl. by destruct (Py.truthy _).
Qed.

Lemma validate_non_empty_strings_spec (v : string) :
  validate_non_empty_strings v = if non_blank v then Some v else None.
Proof.
  unfold validate_non_empty_strings, non_blank.
  destruct v as [|c v]; [done|]. simpl. by destruct (Py.truthy _).
Qed.

(** All that a successful [ValidationErrorDetail] construction fixes. *)
Lemma ValidationErrorDetail_init_inv
    (f m : string) (t v : PyVal) (c : option string)
    (d : ValidationErrorDetail) :
  ValidationErrorDetail_init f m t v c = Ok d →
  ((String.length f ≤ 256)%nat ∧ non_blank f = true ∧ field d = Py.strip f)
  ∧ ((1 ≤ String.length m ≤ 512)%nat ∧ message d = m)
  ∧ (∃ kind, t = VStr kind ∧ (String.length kind ≤ 128)%nat
             ∧ non_blank kind = true ∧ error_type d = Py.strip kind)
  ∧ (constraint d = c ∧ ∀ s, c = Some s → (String.length s ≤ 256)%nat)
  ∧ value d = v.
Proof.
  unfold ValidationErrorDetail_init, Field.opt_str_max. cbv zeta.
  rewrite !str_len_spec. intros H.
  destruct (decide (1 ≤ String.length f ≤ 256)%nat) as [Hf|]; [|done].
  simpl in H. rewrite validate_non_empty_spec in H.
  destruct (non_blank f) eqn:Hfb; [|done].
  destruct (decide (1 ≤ String.length m ≤ 512)%nat) as [Hm|]; [|done].
  destruct t as [| | | |kind]; try done. simpl in H.
  rewrite str_len_spec in H.
  destruct (decide (1 ≤ String.length kind ≤ 128)%nat) as [Hk|]; [|done].
  simpl in H. rewrite validate_non_empty_spec in H.
  destruct (non_blank kind) eqn:Hkb; [|done].
  destruct c as [s|].
  - destruct (String.length s <=? 256)%nat eqn:Hs; [|done].
    apply Nat.leb_le in Hs. simplify_eq. simpl.
    split_and!; try done; try lia.
    + exists kind. split_and!; (done || lia).
    + by intros ? [= <-].
  - simplify_eq. simpl. split_and!; try done; try lia.
    exists kind. split_and!; (done || lia).
Qed.

Lemma prefix_split (p s : string) :
  String.prefix p s = true → ∃ r, s = p +:+ r.
Proof.
  revert s. induction p as [|a p IH]; intros s H.
  - by exists s.
  - destruct s as [|b s]; [done|]. simpl in H.
    destruct (ascii_dec a b) as [->|]; [|done].
    apply IH in H as [r ->]. by exists r.
Qed.

(** What the before-validator of [problem_type] lets through is never
    rejected by the [min_length] and the [pattern] of the field. *)
Lemma validate_problem_type_uri_ok (v s : string) :
  validate_problem_type_uri v = Some s →
  s = Py.strip v ∧ (1 ≤ String.length s)%nat ∧ problem_type_pattern s = Some s.
Proof.
  unfold validate_problem_type_uri, Py.startswith.
  destruct (String.prefix "http://" (Py.strip v)) eqn:H1.
  { intros [= <-]. apply prefix_split in H1 as [r ->].
    split_and!; [done|simpl; lia|reflexivity]. }
  destruct (String.prefix "https://" (Py.strip v)) eqn:H2.
  { intros [= <-]. apply prefix_split in H2 as [r ->].
    split_and!; [done|simpl; lia|reflexivity]. }
  destruct (String.prefix "urn:" (Py.strip v)) eqn:H3.
  { intros [= <-]. apply prefix_split in H3 as [r ->].
    split_and!; [done|simpl; lia|reflexivity]. }
  destruct (String.prefix "#" (Py.strip v)) eqn:H4.
  { intros [= <-]. apply prefix_split in H4 as [r ->].
    split_and!; [done|simpl; lia|reflexivity]. }
  destruct (String.prefix "/" (Py.strip v)) eqn:H5; [|done].
  intros [= <-]. apply prefix_split in H5 as [r ->].
  split_and!; [done|simpl; lia|reflexivity].
Qed.

Lemma int_range_spec (lo hi n : Z) :
  Field.int_range lo hi n
  = if decide (lo ≤ n ≤ hi)%Z then Some n else None.
Proof.
  unfold Field.int_range.
  destruct (lo <=? n)%Z eqn:H1; destruct (n <=? hi)%Z eqn:H2; simpl;
    try apply Z.leb_le in H1; try apply Z.leb_le in H2;
    try apply Z.leb_gt in H1; try apply Z.leb_gt in H2;
    case_decide; (done || lia).
Qed.

Lemma validate_status_code_spec (n : Z) :
  validate_status_code n
  = if decide (100 ≤ n ≤ 599)%Z then Some n else None.
Proof.
  unfold validate_status_code.
  destruct (100 <=? n)%Z eqn:H1; destruct (n <=? 599)%Z eqn:H2; simpl;
    try apply Z.leb_le in H1; try apply Z.leb_le in H2;
    try apply Z.leb_gt in H1; try apply Z.leb_gt in H2;
    case_decide; (done || lia).
Qed.

(** The two model validators touch only [timestamp] and [error_count]. *)
Lemma after_validators_fields utcnow self :
  let doc :=
    validate_error_count_matches_errors
      (set_timestamp_if_needed utcnow self) in
  problem_type doc = problem_type self ∧ title doc = title self
  ∧ status doc = status self ∧ detail doc = detail self
  ∧ instance doc = instance self ∧ error_code doc = error_code self
  ∧ request_id doc = request_id self ∧ error_source doc = error_source self
  ∧ errors doc = errors self
  ∧ error_count doc = Z.of_nat (length (errors self))
  ∧ timestamp doc
    = match timestamp self, request_id self with
      | None, Some _ => Some utcnow
      | t, _ => t
      end.
Proof.
  unfold validate_error_count_matches_errors, set_timestamp_if_needed.
  destruct (timestamp self) eqn:Ht, (request_id self) eqn:Hr; simpl;
    destruct (_ =? _)%Z eqn:H; simpl; split_and!; try done;
    try (by apply Z.eqb_eq in H).
Qed.

(** All that a successful [ValidationProblemDetails] construction fixes. *)
Lemma ValidationProblemDetails_init_inv utcnow kw doc :
  ValidationProblemDetails_init utcnow kw = Ok doc →
  kwargs_accepted kw
  ∧ problem_type doc = Py.strip (problem_type kw)
  ∧ title doc = title kw ∧ status doc = status kw ∧ detail doc = detail kw
  ∧ instance doc = instance kw ∧ error_code doc = error_code kw
  ∧ request_id doc = request_id kw ∧ error_source doc = error_source kw
  ∧ errors doc = errors kw
  ∧ error_count doc = Z.of_nat (length (errors kw))
  ∧ timestamp doc
    = match timestamp kw, request_id kw with
      | None, Some _ => Some utcnow
      | t, _ => t
      end.
Proof.
  unfold ValidationProblemDetails_init, kwargs_accepted. cbv zeta.
  intros H.
  destruct (validate_problem_type_uri (problem_type kw)) as [pt|] eqn:Hpt;
    [|done].
  destruct (validate_problem_type_uri_ok _ _ Hpt) as (-> & Hpt1 & Hpat).
  simpl in H. rewrite str_len_spec in H.
  destruct (decide (1 ≤ String.length (Py.strip (problem_type kw)) ≤ 2048)%nat)
    as [Hptl|]; [|done].
  simpl in H. rewrite Hpat in H.
  rewrite !str_len_spec in H.
  destruct (decide (1 ≤ String.length (title kw) ≤ 255)%nat) as [Hti|];
    [|done].
  simpl in H. rewrite validate_non_empty_strings_spec in H.
  destruct (non_blank (title kw)) eqn:Htb; [|done].
  rewrite int_range_spec in H.
  destruct (decide (400 ≤ status kw ≤ 499)%Z) as [Hst|]; [|done].
  simpl in H. rewrite validate_status_code_spec in H.
  destruct (decide (100 ≤ status kw ≤ 599)%Z); [|lia].
  destruct (decide (1 ≤ String.length (detail kw) ≤ 1024)%nat) as [Hde|];
    [|done].
  simpl in H. rewrite validate_non_empty_strings_spec in H.
  destruct (non_blank (detail kw)) eqn:Hdb; [|done].
  destruct (Field.opt_str_max 2048 (instance kw)) as [ins|] eqn:Hins;
    [|done].
  destruct (errors kw) as [|e l] eqn:Herrs; [done|]. simpl in H.
  unfold Field.int_ge in H.
  destruct (1 <=? error_count kw)%Z eqn:Hcnt; [|done].
  apply Z.leb_le in Hcnt. injection H as <-.
  match goal with
  | |- context [validate_error_count_matches_errors
                  (set_timestamp_if_needed utcnow ?self)] =>
      destruct (after_validators_fields utcnow self)
        as (-> & -> & -> & -> & -> & -> & -> & -> & -> & -> & ->)
  end.
  simpl.
  assert (ins = instance kw ∧
          ∀ s, instance kw = Some s → (String.length s ≤ 2048)%nat)
    as [-> Hinst].
  { unfold Field.opt_str_max in Hins. destruct (instance kw) as [s|].
    - destruct (String.length s <=? 2048)%nat eqn:Hs; [|done].
      apply Nat.leb_le in Hs. simplify_eq. split; [done|]. by intros ? [= <-].
    - by simplify_eq. }
  split_and!; try done; try lia.
Qed.

(** The converse: accepted keyword arguments give a document. *)
Lemma ValidationProblemDetails_init_accepted utcnow kw :
  kwargs_accepted kw → is_ok (ValidationProblemDetails_init utcnow kw) = true.
Proof.
  unfold kwargs_accepted.
  intros ((Hpt & Hptl) & (Htb & Hti) & Hst & (Hdb & Hde) & Hins & Herrs & Hcnt).
  destruct Hpt as [pt Hpt].
  destruct (validate_problem_type_uri_ok _ _ Hpt) as (-> & Hpt1 & Hpat).
  apply non_blank_length in Htb as Hti1. apply non_blank_length in Hdb as Hde1.
  unfold ValidationProblemDetails_init. cbv zeta.
  rewrite Hpt. simpl. rewrite !str_len_spec.
  rewrite decide_True by lia. simpl. rewrite Hpat.
  rewrite decide_True by lia. simpl.
  rewrite validate_non_empty_strings_spec, Htb.
  rewrite int_range_spec, decide_True by lia. simpl.
  rewrite validate_status_code_spec, decide_True by lia.
  rewrite decide_True by lia. simpl.
  rewrite validate_non_empty_strings_spec, Hdb.
  assert (Field.opt_str_max 2048 (instance kw) = Some (instance kw)) as ->.
  { unfold Field.opt_str_max. destruct (instance kw) as [s|]; [|done].
    specialize (Hins s eq_refl). apply Nat.leb_le in Hins. by rewrite Hins. }
  destruct (errors kw) as [|e l]; [done|]. simpl.
  unfold Field.int_ge. apply Z.leb_le in Hcnt. by rewrite Hcnt.
Qed.

(** X3. The constructor of [ValidationProblemDetails] returns a document
    exactly when the keyword arguments pass the checks of [kwargs_accepted]:
    an URI-like problem type of at most 2048 characters after stripping, a
    non-blank title and detail within their lengths, a status in 400..499, an
    instance of at most 2048 characters, a non-empty error list and a count
    of at least 1.  The [pattern] and [min_length] of the fields and the
    inherited status validator reject nothing beyond that. *)
Theorem constructor_acceptance (utcnow : Z) (kw : ValidationProblemDetails) :
  is_ok (ValidationProblemDetails_init utcnow kw) = true ↔ kwargs_accepted kw.
Proof.
  split; [|apply ValidationProblemDetails_init_accepted].
  destruct (ValidationProblemDetails_init utcnow kw) as [doc|] eqn:H; [|done].
  intros _. by apply ValidationProblemDetails_init_inv in H as (? & _).
Qed.

(** X4. A constructed document that carries a request id carries a
    timestamp, a timestamp the caller passed is kept, and without request id
    none is invented. *)
Theorem constructor_timestamp
    (utcnow : Z) (kw doc : ValidationProblemDetails) :
  ValidationProblemDetails_init utcnow kw = Ok doc →
  (is_Some (request_id doc) → is_Some (timestamp doc))
  ∧ (∀ t, timestamp kw = Some t → timestamp doc = Some t)
  ∧ (request_id kw = None → timestamp doc = timestamp kw).
Proof.
  intros H. apply ValidationProblemDetails_init_inv in H
    as (_ & _ & _ & _ & _ & _ & _ & Hr & _ & _ & _ & Ht).
  rewrite Ht, Hr. destruct (timestamp kw), (request_id kw);
    split_and!; try done; intros; simplify_eq; try done;
    by (eexists || destruct H as [? ?]).
Qed.

Lemma constructor_timestamp_witness :
  ValidationProblemDetails_init 1700000000 traced_kwargs = Ok traced_document
  ∧ (is_Some (request_id traced_document)
     → is_Some (timestamp traced_document)).
Proof.
  split; [reflexivity|].
  apply (constructor_timestamp 1700000000 traced_kwargs traced_document).
  reflexivity.
Defined.

(** The mapper is its loop followed by one constructor call. *)
Lemma build_from_pydantic_error_inv
    utcnow error_list instance_ problem_type_ doc :
  build_from_pydantic_error utcnow error_list instance_ problem_type_ = Ok doc →
  ∃ ves,
    Forall2 (fun error d => map_error error = Ok d) error_list ves
    ∧ ValidationProblemDetails_init utcnow
        {| problem_type := problem_type_; title := "Validation Failed";
           status := 400; detail := detail_text (length ves);
           instance := instance_; error_code := None; timestamp := None;
           request_id := None; errors := ves;
           error_count := Z.of_nat (length ves); error_source := None |}
      = Ok doc.
Proof.
  unfold build_from_pydantic_error. intros H.
  destruct (map_errors error_list []) as [ves|e] eqn:Hves; [|done].
  apply map_errors_ok in Hves as (ds & -> & Hds). simpl in *. by exists ds.
Qed.

(** X5. The frame of a document the mapper returns: the stripped problem
    type, the fixed title and status, the summary line for the number of
    failures, the instance as passed, no legacy field and no source, and one
    field error per failure. *)
Theorem mapper_document_frame
    (utcnow : Z) (error_list : list ErrorDict) (instance_ : option string)
    (problem_type_ : string) (doc : ValidationProblemDetails) :
  build_from_pydantic_error utcnow error_list instance_ problem_type_ = Ok doc →
  problem_type doc = Py.strip problem_type_
  ∧ title doc = "Validation Failed"
  ∧ status doc = 400%Z
  ∧ detail doc = detail_text (length error_list)
  ∧ instance doc = instance_
  ∧ error_code doc = None ∧ timestamp doc = None ∧ request_id doc = None
  ∧ error_source doc = None
  ∧ length (errors doc) = length error_list.
Proof.
  intros H. apply build_from_pydantic_error_inv in H as (ves & Hves & H).
  apply Forall2_length in Hves.
  apply ValidationProblemDetails_init_inv in H
    as (_ & -> & -> & -> & -> & -> & -> & -> & -> & -> & _ & ->).
  simpl. rewrite Hves. done.
Qed.

Lemma mapper_document_frame_witness :
  build_from_pydantic_error 0 [padded_error] (Some "/api/v1/users")
    (" " +:+ default_problem_type)
  = Ok padded_document
  ∧ problem_type padded_document = Py.strip (" " +:+ default_problem_type)
  ∧ detail padded_document = detail_text 1.
Proof.
  split; [reflexivity|].
  destruct (mapper_document_frame 0 [padded_error] (Some "/api/v1/users")
              (" " +:+ default_problem_type) padded_document eq_refl)
    as (H1 & _ & _ & H2 & _).
  by split.
Defined.

(** X6. What each field error of a returned document holds: [field] is the
    JSON Pointer of the failure's location with surrounding white space
    stripped, [message] is the string form of the failure's message (or
    "Unknown error"), and [error_type] is the failure's kind (or
    "validation.error"), a string, stripped. *)
Theorem mapper_field_error_content
    (utcnow : Z) (error_list : list ErrorDict) (instance_ : option string)
    (problem_type_ : string) (doc : ValidationProblemDetails) :
  build_from_pydantic_error utcnow error_list instance_ problem_type_ = Ok doc →
  Forall2
    (fun error d =>
       field d = Py.strip (_loc_to_json_pointer (default [] (loc error)))
       ∧ message d = py_str (default (VStr "Unknown error") (msg error))
       ∧ ∃ kind, default (VStr "validation.error") (type_ error) = VStr kind
                 ∧ error_type d = Py.strip kind)
    error_list (errors doc).
Proof.
  intros H. apply build_from_pydantic_error_ok in H as (H & _ & _).
  induction H as [|error d F ds Hd _ IH]; constructor; [|done].
  unfold map_error in Hd.
  apply ValidationErrorDetail_init_inv in Hd
    as ((_ & _ & Hf) & (_ & Hm) & (kind & Hk & _ & _ & Ht) & _).
  split_and!; [done..|]. by exists kind.
Qed.

Lemma mapper_field_error_content_witness :
  build_from_pydantic_error 0 [padded_error] (Some "/api/v1/users")
    (" " +:+ default_problem_type)
  = Ok padded_document
  ∧ _loc_to_json_pointer (default [] (loc padded_error)) = "/name "
  ∧ Forall2
      (fun error d =>
         field d = Py.strip (_loc_to_json_pointer (default [] (loc error)))
         ∧ message d = py_str (default (VStr "Unknown error") (msg error))
         ∧ ∃ kind, default (VStr "validation.error") (type_ error) = VStr kind
                   ∧ error_type d = Py.strip kind)
      [padded_error] (errors padded_document).
Proof.
  split; [reflexivity|]. split; [reflexivity|].
  apply (mapper_field_error_content 0 [padded_error] (Some "/api/v1/users")
           (" " +:+ default_problem_type) padded_document).
  reflexivity.
Defined.

(** X7. The mapper raises as soon as one failure of the list cannot be
    mapped: its message is empty or longer than 512 characters as a string,
    its pointer is blank or longer than 256 characters, or its kind is
    present and not a string. *)
Theorem mapper_raises_on_unmappable
    (utcnow : Z) (error_list : list ErrorDict) (instance_ : option string)
    (problem_type_ : string) (error : ErrorDict) :
  error ∈ error_list →
  unmappable error →
  is_ok (build_from_pydantic_error utcnow error_list instance_ problem_type_)
  = false.
Proof.
  intros Hin Hbad.
  destruct (build_from_pydantic_error _ _ _ _) as [doc|] eqn:H; [|done].
  exfalso.
  apply build_from_pydantic_error_ok in H as (H & _ & _).
  assert (∃ d, map_error error = Ok d) as [d Hd].
  { induction H as [|e d F ds Hd _ IH]; [by apply elem_of_nil in Hin|].
    apply elem_of_cons in Hin as [->|Hin]; [by exists d | by apply IH]. }
  clear H. unfold map_error in Hd.
  apply ValidationErrorDetail_init_inv in Hd
    as ((Hfl & Hfb & _) & (Hm & _) & (kind & Hk & _) & _).
  destruct Hbad as [Hb|[Hb|[Hb|(v & Hv & Hs)]]].
  - by apply Hb.
  - by rewrite Hb in Hfb.
  - lia.
  - rewrite Hv in Hk. simpl in Hk. subst v. done.
Qed.

Lemma mapper_raises_on_unmappable_witness :
  long_message_error ∈ [sample_error_ok; long_message_error]
  ∧ unmappable long_message_error
  ∧ is_ok (build_from_pydantic_error 0 [sample_error_ok; long_message_error]
             None default_problem_type) = false.
Proof.
  assert (long_message_error ∈ [sample_error_ok; long_message_error]) as Hin
    by (rewrite !elem_of_cons; auto).
  assert (unmappable long_message_error) as Hbad
    by (left; vm_compute; lia).
  split; [exact Hin|]. split; [exact Hbad|].
  exact (mapper_raises_on_unmappable 0 [sample_error_ok; long_message_error]
           None default_problem_type long_message_error Hin Hbad).
Defined.

(** X8. [create_validation_problem] returns a document exactly when the
    error list is not empty, the detail is non-blank and at most 1024
    characters long, the instance is at most 2048 characters long and the
    problem type is URI-like and at most 2048 characters long after
    stripping; the document then holds the errors and the detail as passed
    and counts the errors. *)
Theorem create_validation_problem_spec
    (utcnow : Z) (detail_ : string) (errors_ : list ValidationErrorDetail)
    (instance_ : option string) (problem_type_ : string) :
  (is_ok (create_validation_problem utcnow detail_ errors_ instance_
            problem_type_) = true
   ↔ errors_ ≠ []
     ∧ non_blank detail_ = true ∧ (String.length detail_ ≤ 1024)%nat
     ∧ (∀ s, instance_ = Some s → (String.length s ≤ 2048)%nat)
     ∧ is_Some (validate_problem_type_uri problem_type_)
     ∧ (String.length (Py.strip problem_type_) ≤ 2048)%nat)
  ∧ ∀ doc,
      create_validation_problem utcnow detail_ errors_ instance_ problem_type_
      = Ok doc →
      errors doc = errors_ ∧ detail doc = detail_
      ∧ error_count doc = Z.of_nat (length errors_)
      ∧ instance doc = instance_.
Proof.
  unfold create_validation_problem. split.
  - split.
    + destruct (ValidationProblemDetails_init _ _) as [doc|] eqn:H; [|done].
      intros _. apply ValidationProblemDetails_init_inv in H as (Hacc & _).
      unfold kwargs_accepted in Hacc. simpl in Hacc.
      destruct Hacc as ((? & ?) & _ & _ & (? & ?) & ? & ? & _). done.
    + intros (Hne & Hdb & Hdl & Hins & Hpt & Hptl).
      apply ValidationProblemDetails_init_accepted.
      unfold kwargs_accepted. simpl. split_and!; try done; try lia.
      destruct errors_; [done|]. simpl. lia.
  - intros doc H. apply ValidationProblemDetails_init_inv in H
      as (_ & _ & _ & _ & -> & -> & _ & _ & _ & -> & -> & _). done.
Qed.

(** ** Serialization *)

(** X9. [model_dump_rfc7807] never raises on a [ValidationProblemDetails],
    whatever the flags: [type], [title], [status] and [detail] are never
    null and never excluded, so the check of the required fields always
    passes, and the four keys carry the document's values. *)
Theorem model_dump_rfc7807_total
    (self : ValidationProblemDetails) (include_none include_legacy : bool) :
  ∃ data,
    model_dump_rfc7807 self include_none include_legacy = DumpOk data
    ∧ dict_get "type" data = Some (DVal (VStr (problem_type self)))
    ∧ dict_get "title" data = Some (DVal (VStr (title self)))
    ∧ dict_get "status" data = Some (DVal (VInt (status self)))
    ∧ dict_get "detail" data = Some (DVal (VStr (detail self))).
Proof.
  unfold model_dump_rfc7807, model_dump, dump_filter.
  eexists. split.
  - destruct include_none, include_legacy; reflexivity.
  - destruct include_none, include_legacy; split_and!; reflexivity.
Qed.

Lemma dump_detail_wire (d : ValidationErrorDetail) :
  value d = VNone → DDict (dump_detail true d) = wire_detail d.
Proof.
  intros Hv. unfold dump_detail, wire_detail, dump_filter.
  rewrite Hv. by destruct (constraint d).
Qed.

(** X10. The wire form of a document the mapper returns (default flags):
    [type], [title], [status], [detail], the instance if one was passed,
    [errors] and [error_count], in this order and nothing else; every error
    has [field], [message], [type] and, if one was built, [constraint], and
    never a [value] key. *)
Theorem mapper_wire_form
    (utcnow : Z) (error_list : list ErrorDict) (instance_ : option string)
    (problem_type_ : string) (doc : ValidationProblemDetails) :
  build_from_pydantic_error utcnow error_list instance_ problem_type_ = Ok doc →
  model_dump_rfc7807 doc false false
  = DumpOk
      ([ ("type", DVal (VStr (Py.strip problem_type_)));
         ("title", DVal (VStr "Validation Failed"));
         ("status", DVal (VInt 400));
         ("detail", DVal (VStr (detail_text (length error_list)))) ]
       ++ match instance_ with
          | Some i => [("instance", DVal (VStr i))]
          | None => []
          end
       ++ [ ("errors", DList (map wire_detail (errors doc)));
            ("error_count", DVal (VInt (Z.of_nat (length error_list)))) ]).
Proof.
  intros H.
  assert (Forall (fun d => value d = VNone) (errors doc)) as Hvals.
  { apply build_from_pydantic_error_ok in H as (H & _ & _).
    induction H as [|error d F ds Hd _ IH]; constructor; [|done].
    unfold map_error in Hd.
    by apply ValidationErrorDetail_init_ok in Hd as (Hv & _). }
  assert (map (fun d => DDict (dump_detail true d)) (errors doc)
          = map wire_detail (errors doc)) as Hmap.
  { induction Hvals as [|d ds Hd _ IH]; [done|].
    simpl. by rewrite IH, dump_detail_wire. }
  apply build_from_pydantic_error_inv in H as (ves & Hves & H).
  apply Forall2_length in Hves.
  apply ValidationProblemDetails_init_inv in H
    as (_ & Hpt & Hti & Hst & Hde & Hin & Hec & Hrq & Hso & Her & Hcn & Hts).
  simpl in *.
  unfold model_dump_rfc7807, model_dump, dump_filter. simpl negb.
  rewrite Hmap, Hpt, Hti, Hst, Hde, Hin, Hec, Hrq, Hso, Hcn, Hts, Hves.
  by destruct instance_.
Qed.

Lemma mapper_wire_form_witness :
  build_from_pydantic_error 0 [secret_error; float_bound_error] None
    default_problem_type
  = Ok two_error_document
  ∧ model_dump_rfc7807 two_error_document false false
    = DumpOk
        [ ("type", DVal (VStr default_problem_type));
          ("title", DVal (VStr "Validation Failed"));
          ("status", DVal (VInt 400));
          ("detail", DVal (VStr "2 validation errors occurred"));
          ("errors",
           DList
             [ DDict [ ("field", DVal (VStr "/password"));
                       ("message", DVal (VStr "Invalid"));
                       ("type", DVal (VStr "string_too_short"));
                       ("constraint", DVal (VStr "min_length=8")) ];
               DDict [ ("field", DVal (VStr "/price"));
                       ("message", DVal (VStr "too small"));
                       ("type", DVal (VStr "greater_than_equal")) ] ]);
          ("error_count", DVal (VInt 2)) ].
Proof.
  split; [reflexivity|].
  exact (mapper_wire_form 0 [secret_error; float_bound_error] None
           default_problem_type two_error_document eq_refl).
Defined.

(** [model_dump_with_legacy] always returns the eleven keys of the model,
    in the order of the fields, and every error in it the five keys of
    [ValidationErrorDetail], null or not. *)
Lemma model_dump_with_legacy_keys (self : ValidationProblemDetails) :
  ∃ data,
    model_dump_with_legacy self = DumpOk data
    ∧ keys data
      = [ "type"; "title"; "status"; "detail"; "instance"; "error_code";
          "timestamp"; "request_id"; "errors"; "error_count"; "error_source" ]
    ∧ dict_get "errors" data
      = Some (DList (map (fun d => DDict (dump_detail false d)) (errors self)))
    ∧ ∀ d, keys (dump_detail false d)
           = ["field"; "message"; "type"; "value"; "constraint"].
Proof. eexists. split_and!; reflexivity. Qed.

(** X11. With [include_legacy=False] the dump holds none of [error_code],
    [timestamp], [request_id]; with [include_none=False] no entry of the
    dump, and no entry of an error in it, is null. *)
Theorem model_dump_rfc7807_exclusions
    (self : ValidationProblemDetails) (include_none : bool)
    (data : list (string * Dumped)) :
  model_dump_rfc7807 self include_none false = DumpOk data →
  (dict_get "error_code" data = None ∧ dict_get "timestamp" data = None
   ∧ dict_get "request_id" data = None)
  ∧ (include_none = false →
     Forall (fun kv => is_none kv.2 = false) data
     ∧ ∀ d, Forall (fun kv => is_none kv.2 = false) (dump_detail true d)).
Proof.
  unfold model_dump_rfc7807, model_dump, dump_filter. simpl negb.
  destruct include_none; simpl negb; cbn [andb].
  - intros [= <-]. split; [|done].
    destruct (instance self), (error_source self); split_and!; reflexivity.
  - destruct (instance self), (error_source self); intros [= <-];
      (split; [split_and!; reflexivity|]); intros _;
      (split; [repeat constructor|]); intros d;
      unfold dump_detail, dump_filter;
      destruct (value d) as [| | | |], (constraint d); repeat constructor.
Qed.

Lemma model_dump_rfc7807_exclusions_witness :
  model_dump_rfc7807 traced_document false false
  = DumpOk
      [ ("type", DVal (VStr "urn:error:validation"));
        ("title", DVal (VStr "Validation Failed"));
        ("status", DVal (VInt 422));
        ("detail", DVal (VStr "Email is invalid"));
        ("errors",
         DList [ DDict [ ("field", DVal (VStr "/email"));
                         ("message", DVal (VStr "Invalid email format"));
                         ("type", DVal (VStr "value_error.email")) ] ]);
        ("error_count", DVal (VInt 1)) ]
  ∧ request_id traced_document = Some "req-1"
  ∧ dict_get "request_id"
      [ ("type", DVal (VStr "urn:error:validation"));
        ("title", DVal (VStr "Validation Failed"));
        ("status", DVal (VInt 422));
        ("detail", DVal (VStr "Email is invalid"));
        ("errors",
         DList [ DDict [ ("field", DVal (VStr "/email"));
                         ("message", DVal (VStr "Invalid email format"));
                         ("type", DVal (VStr "value_error.email")) ] ]);
        ("error_count", DVal (VInt 1)) ] = None.
Proof.
  split; [reflexivity|]. split; [reflexivity|].
  destruct (model_dump_rfc7807_exclusions traced_document false _ eq_refl)
    as ((_ & _ & H) & _).
  exact H.
Defined.

(** ** Legacy client detector *)

Lemma list_compare_antisym (l1 l2 : list Z) :
  list_compare l2 l1 = CompOpp (list_compare l1 l2).
Proof.
  revert l2. induction l1 as [|x l1 IH]; intros [|y l2]; simpl; try done.
  rewrite (Z.compare_antisym x y).
  destruct (x ?= y)%Z; simpl; [apply IH|done..].
Qed.

Lemma list_compare_refl (l : list Z) : list_compare l l = Eq.
Proof. induction l as [|x l IH]; simpl; [done|]. by rewrite Z.compare_refl. Qed.

(** X12. [_compare_versions] is antisymmetric, and a version equals itself:
    swapping the arguments negates the result, whether or not the versions
    parse. *)
Theorem compare_versions_antisym (v1 v2 : string) :
  _compare_versions v2 v1 = (- _compare_versions v1 v2)%Z
  ∧ _compare_versions v1 v1 = 0%Z.
Proof.
  unfold _compare_versions. split.
  - destruct (version_parts v1) as [p1|], (version_parts v2) as [p2|];
      try done.
    rewrite (Nat.max_comm (length p2) (length p1)).
    rewrite (list_compare_antisym
               (p1 ++ repeat 0%Z (length p1 `max` length p2 - length p1))).
    by destruct (list_compare _ _).
  - destruct (version_parts v1) as [p1|]; [|done].
    by rewrite list_compare_refl.
Qed.

Lemma match_legacy_version_free (patterns : list (string * LegacyPattern))
    (ua : string) (av av' : option string) :
  Forall (fun kc => is_Some (version_max kc.2) → tier kc.2 = LEGACY)
         patterns →
  match_legacy patterns ua av = match_legacy patterns ua av'.
Proof.
  induction 1 as [|[pattern config] rest Hc _ IH]; [done|]. simpl.
  destruct (Py.contains _ _); [|done].
  destruct (version_max config) as [vmax|] eqn:Hv; [|done].
  simpl in Hc. rewrite Hv in Hc. rewrite Hc by done.
  destruct av as [v|], av' as [v'|]; try done;
    repeat (destruct (_ && _); try done).
Qed.

Lemma dict_set_Forall {V} (P : string * V → Prop) key v (d : list (string * V)) :
  Forall P d → (∀ k, P (k, v)) → Forall P (dict_set key v d).
Proof.
  intros Hd Hv. induction Hd as [|[k old] rest Hk Hrest IH]; simpl.
  - by repeat constructor.
  - destruct (String.eqb k key); constructor; done.
Qed.

Lemma registered_versioned (d : LegacyClientDetector) :
  registered d → versioned_are_legacy d.
Proof.
  unfold versioned_are_legacy.
  induction 1 as [|d cid p t _ IH|d p t _ IH]; simpl.
  - repeat constructor; simpl; by intros [? ?].
  - apply dict_set_Forall; [done|]. simpl. by intros _ [? ?].
  - done.
Qed.

(** X13. On the initial detector, and after any number of registrations,
    [detect] does not depend on [api_version]: the version test can only
    return the legacy tier for patterns whose own tier is legacy already. *)
Theorem detect_ignores_api_version (d : LegacyClientDetector)
    (user_agent accept_header client_id api_version api_version' : option string) :
  registered d →
  detect d user_agent accept_header client_id api_version
  = detect d user_agent accept_header client_id api_version'.
Proof.
  intros Hd. apply registered_versioned in Hd. unfold detect.
  destruct (_ && _); [done|].
  destruct (given user_agent); [|done].
  by rewrite (match_legacy_version_free _ _ api_version api_version').
Qed.

Lemma detect_ignores_api_version_witness :
  registered
    (register_legacy_client LegacyClientDetector_init "partner-7" "partnerbot"
       COMPATIBLE)
  ∧ detect
      (register_legacy_client LegacyClientDetector_init "partner-7"
         "partnerbot" COMPATIBLE)
      (Some "urllib3/1.26") None None (Some "0.9")
    = detect
        (register_legacy_client LegacyClientDetector_init "partner-7"
           "partnerbot" COMPATIBLE)
        (Some "urllib3/1.26") None None (Some "9.0").
Proof.
  assert (registered
            (register_legacy_client LegacyClientDetector_init "partner-7"
               "partnerbot" COMPATIBLE)) as H
    by (apply registered_legacy, registered_init).
  split; [exact H|].
  exact (detect_ignores_api_version _ (Some "urllib3/1.26") None None
           (Some "0.9") (Some "9.0") H).
Defined.

Lemma match_legacy_dict_set (l : list (string * LegacyPattern))
    (p ua : string) (t : ClientTier) (av : option string) :
  Py.contains (Py.lower p) (Py.lower ua) = true →
  (∀ k c, (k, c) ∈ l → k ≠ p →
          Py.contains (Py.lower k) (Py.lower ua) = false) →
  match_legacy (dict_set p {| version_max := None; tier := t |} l) ua av
  = Some t.
Proof.
  intros Hp. induction l as [|[k c] rest IH]; intros Hothers; simpl.
  - by rewrite Hp.
  - destruct (String.eqb_spec k p) as [->|Hne]; simpl.
    + by rewrite Hp.
    + rewrite (Hothers k c); [|apply elem_of_cons; by left|done].
      apply IH. intros k' c' Hin. apply (Hothers k' c').
      apply elem_of_cons. by right.
Qed.

(** X14. After [register_legacy_client] with a pattern and a tier, a request
    that does not ask for RFC 7807 and whose user agent contains the pattern
    (letter case aside) and no other legacy pattern is classified with that
    tier, whatever its client id and version. *)
Theorem register_legacy_client_detected (d : LegacyClientDetector)
    (registrant pattern : string) (tier_ : ClientTier) (user_agent : string)
    (accept_header client_id api_version : option string) :
  asks_rfc7807 d accept_header = false →
  Py.contains (Py.lower pattern) (Py.lower user_agent) = true →
  Py.truthy user_agent = true →
  (∀ k c, (k, c) ∈ legacy_user_agents d → k ≠ pattern →
          Py.contains (Py.lower k) (Py.lower user_agent) = false) →
  detect (register_legacy_client d registrant pattern tier_)
         (Some user_agent) accept_header client_id api_version
  = tier_.
Proof.
  intros Hask Hp Hua Hothers. unfold detect.
  change (given accept_header
          && accepts_rfc7807 (register_legacy_client d registrant pattern tier_)
               (default EmptyString accept_header))
    with (asks_rfc7807 d accept_header).
  rewrite Hask. simpl. rewrite Hua.
  by rewrite match_legacy_dict_set.
Qed.

Lemma register_legacy_client_detected_witness :
  asks_rfc7807 LegacyClientDetector_init (Some "application/json") = false
  ∧ detect LegacyClientDetector_init (Some "PartnerBot/2.1")
      (Some "application/json") None None = UNKNOWN
  ∧ detect
      (register_legacy_client LegacyClientDetector_init "partner-7"
         "partnerbot" COMPATIBLE)
      (Some "PartnerBot/2.1") (Some "application/json") None None
    = COMPATIBLE.
Proof.
  split; [reflexivity|]. split; [reflexivity|].
  apply (register_legacy_client_detected LegacyClientDetector_init
           "partner-7" "partnerbot" COMPATIBLE "PartnerBot/2.1");
    [reflexivity..|].
  intros k c Hin Hne. simpl in Hin.
  repeat (apply elem_of_cons in Hin as [[= -> ->]|Hin]; [reflexivity|]).
  by apply elem_of_nil in Hin.
Defined.

Lemma match_modern_dict_set (l : list (string * ClientTier))
    (p ua : string) (t : ClientTier) :
  Py.contains (Py.lower p) (Py.lower ua) = false →
  match_modern (dict_set p t l) ua = match_modern l ua.
Proof.
  intros Hp. induction l as [|[k c] rest IH]; simpl.
  - by rewrite Hp.
  - destruct (String.eqb_spec k p) as [->|Hne]; simpl.
    + by rewrite Hp.
    + by rewrite IH.
Qed.

(** X15. [register_modern_client] leaves the classification of a request
    alone when the request asks for RFC 7807, or its user agent matches a
    legacy pattern, or its user agent does not contain the new pattern:
    legacy patterns and the [Accept] header come first. *)
Theorem register_modern_client_scope (d : LegacyClientDetector)
    (pattern : string) (tier_ : ClientTier)
    (user_agent accept_header client_id api_version : option string) :
  asks_rfc7807 d accept_header = true
  ∨ is_Some (match_legacy (legacy_user_agents d)
               (default EmptyString user_agent) api_version)
  ∨ Py.contains (Py.lower pattern)
      (Py.lower (default EmptyString user_agent)) = false →
  detect (register_modern_client d pattern tier_)
         user_agent accept_header client_id api_version
  = detect d user_agent accept_header client_id api_version.
Proof.
  intros H. unfold detect.
  change (given accept_header
          && accepts_rfc7807 (register_modern_client d pattern tier_)
               (default EmptyString accept_header))
    with (asks_rfc7807 d accept_header).
  change (given accept_header
          && accepts_rfc7807 d (default EmptyString accept_header))
    with (asks_rfc7807 d accept_header).
  destruct (asks_rfc7807 d accept_header); [done|].
  destruct (given user_agent); [|done]. simpl.
  destruct H as [H|[[t0 H]|H]]; [done| |].
  - by rewrite H.
  - by rewrite match_modern_dict_set.
Qed.

Lemma register_modern_client_scope_witness :
  is_Some (match_legacy (legacy_user_agents LegacyClientDetector_init)
             (default EmptyString (Some "axios/0.21")) None)
  ∧ detect (register_modern_client LegacyClientDetector_init "axios/0" MODERN)
      (Some "axios/0.21") None None None
    = LEGACY.
Proof.
  assert (is_Some (match_legacy (legacy_user_agents LegacyClientDetector_init)
                     (default EmptyString (Some "axios/0.21")) None)) as H
    by (by eexists).
  split; [exact H|].
  rewrite (register_modern_client_scope LegacyClientDetector_init "axios/0"
             MODERN (Some "axios/0.21") None None None (or_intror (or_introl H))).
  reflexivity.
Defined.

(** ** Configuration manager *)

(** One call keeps configuration and detector and only adds to the cache. *)
Lemma get_client_tier_preserves (self : ProblemDetailsConfigurationManager)
    (ua ah cid av : option string) :
  let self' := (get_client_tier self ua ah cid av).2 in
  config self' = config self ∧ detector self' = detector self
  ∧ _client_cache self ⊆ _client_cache self'.
Proof.
  unfold get_client_tier.
  destruct (detect_legacy_clients (config self)); simpl; [|done].
  destruct (cache_detection (config self)) eqn:Hc; simpl.
  - destruct (_client_cache self !! cache_key ua ah cid) eqn:Hk; simpl;
      [done|].
    split_and!; [done..|]. by apply insert_subseteq.
  - done.
Qed.

(** X16. Over any sequence of [get_client_tier] calls the manager keeps its
    configuration and its detector, and the cache only grows: an entry, once
    written, is never removed or replaced. *)
Theorem run_calls_cache_grows (self : ProblemDetailsConfigurationManager)
    (calls : list Call) :
  config (run_calls self calls).2 = config self
  ∧ detector (run_calls self calls).2 = detector self
  ∧ _client_cache self ⊆ _client_cache (run_calls self calls).2.
Proof.
  revert self. induction calls as [|[[[ua ah] cid] av] rest IH]; intros self.
  - done.
  - cbn [run_calls call_tier].
    pose proof (get_client_tier_preserves self ua ah cid av) as (Hc & Hd & Hs).
    destruct (get_client_tier self ua ah cid av) as [t self'] eqn:H1.
    specialize (IH self') as (Hc' & Hd' & Hs').
    destruct (run_calls self' rest) as [ts self''] eqn:H2. simpl in *.
    split_and!; [congruence..|]. by etrans.
Qed.

(** X17. With detection and caching on, a call repeated right away is
    answered from the cache: it returns the tier of the first call and
    leaves the manager as the first call left it, also when the second call
    passes another [api_version]. *)
Theorem repeated_call_is_hit (self : ProblemDetailsConfigurationManager)
    (user_agent accept_header client_id api_version api_version' : option string) :
  detect_legacy_clients (config self) = true →
  cache_detection (config self) = true →
  get_client_tier
    (get_client_tier self user_agent accept_header client_id api_version).2
    user_agent accept_header client_id api_version'
  = get_client_tier self user_agent accept_header client_id api_version.
Proof.
  intros Hd Hc. unfold get_client_tier. rewrite Hd, Hc. simpl.
  destruct (_client_cache self !! _) as [t|] eqn:Hk; simpl.
  - by rewrite Hd, Hc, Hk.
  - rewrite Hd, Hc. simpl. by rewrite lookup_insert_eq.
Qed.

Lemma repeated_call_is_hit_witness :
  detect_legacy_clients
    (config (manager_at HYBRID LegacyClientDetector_init ∅)) = true
  ∧ cache_detection
      (config (manager_at HYBRID LegacyClientDetector_init ∅)) = true
  ∧ get_client_tier
      (get_client_tier (manager_at HYBRID LegacyClientDetector_init ∅)
         (Some "axios/1.0") None None (Some "1.0")).2
      (Some "axios/1.0") None None (Some "2.0")
    = get_client_tier (manager_at HYBRID LegacyClientDetector_init ∅)
        (Some "axios/1.0") None None (Some "1.0").
Proof.
  split; [reflexivity|]. split; [reflexivity|].
  apply (repeated_call_is_hit (manager_at HYBRID LegacyClientDetector_init ∅));
    reflexivity.
Defined.

(** X18. [choose_format] returns RFC 7807, the configured legacy format, or
    the user's preference when that is an allowed format; [default_format]
    and the other allowed formats never come out on their own. *)
Theorem choose_format_range (self : ProblemDetailsConfigurationManager)
    (client_tier : ClientTier) (accept_header : option string)
    (user_preference : option ResponseFormat) :
  let chosen := choose_format self client_tier accept_header user_preference in
  chosen = RFC7807
  ∨ chosen = legacy_format (config self)
  ∨ (user_preference = Some chosen ∧ chosen ∈ allowed_formats (config self)).
Proof.
  unfold choose_format. simpl.
  destruct user_preference as [p|].
  - case_bool_decide as Hp; [by right; right|].
    repeat case_match; simplify_eq; auto.
  - repeat case_match; simplify_eq; auto.
Qed.


Lemma names_problem_json_given (accept_header : option string) :
  names_problem_json accept_header = true → given accept_header = true.
Proof. destruct accept_header as [[|c h]|]; done. Qed.

(** X19. When the rollout decision for a tier is "no" (RFC 7807 disabled, a
    legacy-only mode, a legacy client in hybrid mode) and the legacy format
    is not RFC 7807 itself, [choose_format] still returns RFC 7807 in exactly
    two cases: the user prefers it and it is allowed, or no preference is
    taken, the [Accept] header is respected and it names
    [application/problem+json]. *)
Theorem choose_format_despite_rollout
    (self : ProblemDetailsConfigurationManager) (client_tier : ClientTier)
    (accept_header : option string) (user_preference : option ResponseFormat) :
  should_use_rfc7807 self client_tier = false →
  legacy_format (config self) ≠ RFC7807 →
  choose_format self client_tier accept_header user_preference = RFC7807
  ↔ (user_preference = Some RFC7807 ∧ RFC7807 ∈ allowed_formats (config self))
    ∨ (¬ preference_taken self user_preference
       ∧ respect_accept_header (config self) = true
       ∧ names_problem_json accept_header = true).
Proof.
  intros Hno Hleg. unfold choose_format, preference_taken. rewrite Hno.
  assert (names_problem_json accept_header = true
          → given accept_header = true) as Hgiven
    by apply names_problem_json_given.
  unfold names_problem_json in *.
  destruct user_preference as [p|].
  - case_bool_decide as Hp.
    + split; [intros ->; by left|].
      intros [[[= ->] _]|[Hnot _]]; [done|]. exfalso. apply Hnot. by exists p.
    + destruct (respect_accept_header (config self)); simpl.
      * destruct accept_header as [h|]; simpl.
        -- destruct (Py.truthy h) eqn:Hh; simpl.
           ++ destruct (Py.contains "application/problem+json" h) eqn:Hc.
              ** split; [intros _|done]. right. split_and!; [|done..].
                 intros (q & [= <-] & Hq). done.
              ** split.
                 --- repeat case_match; intros ?; congruence.
                 --- intros [[[= ->] Ha]|(_ & _ & ?)]; done.
           ++ split; [intros ?; congruence|].
              intros [[[= ->] Ha]|(_ & _ & Hc)]; [done|].
              specialize (Hgiven Hc). simpl in Hgiven. congruence.
        -- split; [intros ?; congruence|]. intros [[[= ->] Ha]|(_ & _ & ?)]; done.
      * split; [intros ?; congruence|].
        intros [[[= ->] Ha]|(_ & ? & _)]; done.
  - destruct (respect_accept_header (config self)); simpl.
    + destruct accept_header as [h|]; simpl.
      * destruct (Py.truthy h) eqn:Hh; simpl.
        -- destruct (Py.contains "application/problem+json" h) eqn:Hc.
           ++ split; [intros _|done]. right. split_and!; [|done..].
              intros (q & [=] & _).
           ++ split.
              ** repeat case_match; intros ?; congruence.
              ** intros [[[=] _]|(_ & _ & ?)]; done.
        -- split; [intros ?; congruence|].
           intros [[[=] _]|(_ & _ & Hc)].
           specialize (Hgiven Hc). simpl in Hgiven. congruence.
      * split; [intros ?; congruence|]. intros [[[=] _]|(_ & _ & ?)]; done.
    + split; [intros ?; congruence|]. intros [[[=] _]|(_ & ? & _)]; done.
Qed.

Lemma choose_format_despite_rollout_witness :
  should_use_rfc7807 switched_off_manager MODERN = false
  ∧ legacy_format (config switched_off_manager) ≠ RFC7807
  ∧ choose_format switched_off_manager MODERN
      (Some "application/problem+json") None = RFC7807.
Proof.
  split; [reflexivity|]. split; [discriminate|].
  apply (choose_format_despite_rollout switched_off_manager MODERN
           (Some "application/problem+json") None);
    [reflexivity|discriminate|].
  right. split_and!; [|reflexivity..]. intros (q & Hq & _). discriminate Hq.
Defined.

(** X20. The rollout decision is monotone in the tier: when any tier is
    given RFC 7807 the modern tier is, and when the legacy tier is given it
    every tier is. *)
Theorem should_use_rfc7807_monotone
    (self : ProblemDetailsConfigurationManager) (client_tier : ClientTier) :
  (should_use_rfc7807 self client_tier = true →
   should_use_rfc7807 self MODERN = true)
  ∧ (should_use_rfc7807 self LEGACY = true →
     should_use_rfc7807 self client_tier = true).
Proof.
  unfold should_use_rfc7807.
  destruct (enabled (config self)); simpl; [|done].
  destruct (mode (config self)), client_tier; simpl; done.
Qed.

(** ** Response format converters *)

(** X21. A legacy response that carries its three members comes back
    unchanged from a conversion to RFC 7807 and back. *)
Theorem legacy_round_trip (detail_ status_code error_type_ : PyVal) :
  to_legacy_fastapi
    (from_legacy_fastapi
       {[ "detail" := detail_; "status_code" := status_code;
          "error_type" := error_type_ ]})
  = {[ "detail" := detail_; "status_code" := status_code;
       "error_type" := error_type_ ]}.
Proof. unfold to_legacy_fastapi, from_legacy_fastapi. by simplify_map_eq. Qed.

(** X22. A problem converted to the legacy format and back keeps its status
    and detail (500 and "An error occurred" when it had none), has the title
    "API Error" whatever its title was, and has its own type, or a null type
    when it had none: the default type URI of [from_legacy_fastapi] is never
    used here, because [to_legacy_fastapi] always writes [error_type]. *)
Theorem problem_through_legacy (problem_details : gmap string PyVal) :
  from_legacy_fastapi (to_legacy_fastapi problem_details)
  = {[ "type" := default VNone (problem_details !! "type");
       "title" := VStr "API Error";
       "status" := default (VInt 500) (problem_details !! "status");
       "detail" :=
         default (VStr "An error occurred") (problem_details !! "detail") ]}.
Proof. unfold to_legacy_fastapi, from_legacy_fastapi. by simplify_map_eq. Qed.

(** X23. [convert_response] returns the problem unchanged for the targets
    RFC7807 and CUSTOM.  For HATEOAS it keeps every member except [_links],
    which it writes (over a member of that name, if any) with the instance
    URL, or "/" when none or an empty one is passed, as the [self] link. *)
Theorem convert_response_members (problem_details : gmap string PyVal)
    (instance_url : option string) :
  convert_response problem_details RFC7807 instance_url
  = PVal <$> problem_details
  ∧ convert_response problem_details CUSTOM instance_url
    = PVal <$> problem_details
  ∧ (∀ k, k ≠ "_links" →
          convert_response problem_details HATEOAS instance_url !! k
          = PVal <$> problem_details !! k)
  ∧ ∃ help,
      convert_response problem_details HATEOAS instance_url !! "_links"
      = Some (PDict
                [ ("self",
                   PDict [("href",
                           PVal (VStr (match instance_url with
                                       | Some (String c u) => String c u
                                       | _ => "/"
                                       end)))]);
                  ("help", help) ]).
Proof.
  split_and!; [done..| |].
  - intros k Hk. unfold convert_response, to_hateoas. simpl.
    rewrite lookup_insert_ne by done. by rewrite lookup_fmap.
  - eexists. unfold convert_response, to_hateoas. simpl.
    rewrite lookup_insert_eq. by destruct instance_url as [[|c u]|].
Qed.

(** ** Deprecation header *)

(** X24. [get_deprecation_header] returns a header exactly when the legacy
    format is deprecated, that is when deprecation is enabled and a date is
    set that the clock has reached; the header then always starts with
    [true; date="<the date>"], and a link follows only for a non-empty
    migration guide URL. *)
Theorem deprecation_header_spec (isoformat : Z → string)
    (cfg : DeprecationConfig) (now : Z) :
  (get_deprecation_header isoformat cfg now = None
   ↔ ¬ (deprecation_enabled cfg = true
        ∧ ∃ date, deprecation_date cfg = Some date ∧ (date ≤ now)%Z))
  ∧ ∀ header,
      get_deprecation_header isoformat cfg now = Some header →
      ∃ date,
        deprecation_date cfg = Some date ∧ (date ≤ now)%Z
        ∧ header
          = ("true; date=" +:+ dquote +:+ isoformat date +:+ dquote)
            +:+ match migration_guide_url cfg with
                | Some (String c u) =>
                    "; link=" +:+ dquote +:+ String c u +:+ dquote
                | _ => ""
                end.
Proof.
  unfold get_deprecation_header, is_deprecated.
  destruct (deprecation_enabled cfg); simpl.
  2: { split; [|done]. split; [|done]. by intros _ [? _]. }
  destruct (deprecation_date cfg) as [date|]; simpl.
  2: { split; [|done]. split; [|done]. by intros _ (_ & ? & ? & _). }
  destruct (date <=? now)%Z eqn:Hd; simpl.
  - apply Z.leb_le in Hd. split.
    + split; [done|]. intros H. exfalso. apply H. split; [done|]. by exists date.
    + intros header [= <-]. exists date. split_and!; [done..|].
      destruct (migration_guide_url cfg) as [[|c u]|]; simpl.
      * by rewrite string_app_nil_r.
      * by rewrite <- !string_app_assoc.
      * by rewrite string_app_nil_r.
  - apply Z.leb_gt in Hd. split; [|done]. split; [|done].
    intros _ (_ & d & [= <-] & ?). lia.
Qed.

(** ** Statistics *)

Lemma bump_lookup (key k : string) (counts : gmap string nat) :
  default 0 (bump key counts !! k)
  = default 0 (counts !! k) + (if decide (key = k) then 1 else 0).
Proof.
  unfold bump. destruct (decide (key = k)) as [->|Hne].
  - by rewrite lookup_insert_eq.
  - rewrite lookup_insert_ne by done. lia.
Qed.

Lemma tally_fold (log : list Decision) (fc tc : gmap string nat) (k : string) :
  let '(fc', tc') :=
    fold_left
      (fun '(format_counts, tier_counts) decision =>
         (bump (decision_format decision) format_counts,
          bump (decision_client_tier decision) tier_counts))
      log (fc, tc) in
  default 0 (fc' !! k)
  = default 0 (fc !! k) + occurrences decision_format k log
  ∧ default 0 (tc' !! k)
    = default 0 (tc !! k) + occurrences decision_client_tier k log.
Proof.
  revert fc tc. induction log as [|d log IH]; intros fc tc; simpl.
  - unfold occurrences. simpl. lia.
  - specialize (IH (bump (decision_format d) fc)
                   (bump (decision_client_tier d) tc)).
    destruct (fold_left _ log _) as [fc' tc'].
    destruct IH as [IHf IHt]. rewrite IHf, IHt, !bump_lookup.
    unfold occurrences. rewrite !filter_cons.
    destruct (decide (decision_format d = k)),
             (decide (decision_client_tier d = k)); simpl; lia.
Qed.

(** X25. For a log with at least one entry, [get_statistics] reports the
    length of the log as total, and for every format value and every tier
    value the number of entries that carry it (no count for a value that
    does not occur is above zero). *)
Theorem statistics_tallies (log : list Decision) :
  log ≠ [] →
  ∃ formats tiers recent,
    get_statistics log = Decisions (length log) formats tiers recent
    ∧ (∀ k, default 0 (formats !! k) = occurrences decision_format k log)
    ∧ (∀ k, default 0 (tiers !! k) = occurrences decision_client_tier k log).
Proof.
  intros Hne. unfold get_statistics.
  destruct log as [|d0 log0] eqn:Hlog; [done|]. rewrite <- Hlog. clear Hne.
  pose proof (tally_fold log ∅ ∅) as Hfold.
  destruct (fold_left _ log (∅, ∅)) as [fc tc].
  eexists fc, tc, _. split; [done|].
  split; intros k; specialize (Hfold k); rewrite !lookup_empty in Hfold;
    simpl in Hfold; lia.
Qed.

Lemma statistics_tallies_witness :
  two_decisions ≠ []
  ∧ ∃ formats tiers recent,
      get_statistics two_decisions
      = Decisions (length two_decisions) formats tiers recent
      ∧ (∀ k, default 0 (formats !! k)
              = occurrences decision_format k two_decisions)
      ∧ (∀ k, default 0 (tiers !! k)
              = occurrences decision_client_tier k two_decisions).
Proof.
  assert (two_decisions ≠ []) as H by discriminate.
  split; [exact H|]. exact (statistics_tallies two_decisions H).
Defined.

(** X26. Logging a decision and asking for the statistics: the total is one
    more than the log had entries, the tally of the chosen format's value is
    one more than before, and [recent_decisions] holds the last ten entries
    of the log (all of them while there are fewer), ending with the new
    one. *)
Theorem statistics_after_logging (log : list Decision) (now_iso : string)
    (client_id : option string) (client_tier : ClientTier)
    (chosen_format : ResponseFormat) (reason : string) :
  let log' :=
    log_format_decision log now_iso client_id client_tier chosen_format
      reason in
  ∃ formats tiers recent,
    get_statistics log' = Decisions (S (length log)) formats tiers recent
    ∧ default 0 (formats !! ResponseFormat_value chosen_format)
      = S (occurrences decision_format (ResponseFormat_value chosen_format)
             log)
    ∧ length recent = Nat.min 10 (S (length log))
    ∧ recent `suffix_of` log'
    ∧ last recent
      = Some {| decision_timestamp := now_iso;
                decision_client_id := client_id;
                decision_client_tier := ClientTier_value client_tier;
                decision_format := ResponseFormat_value chosen_format;
                decision_reason := reason |}.
Proof.
  intros log'.
  assert (log' ≠ []) as Hne by (subst log'; by destruct log).
  assert (length log' = S (length log)) as Hlen
    by (subst log'; unfold log_format_decision; rewrite length_app; simpl; lia).
  destruct (statistics_tallies log' Hne) as (formats & tiers & recent & Hs & Hf & _).
  exists formats, tiers, recent. rewrite <- Hlen. split; [done|].
  assert (recent = drop (length log' - 10) log') as ->.
  { unfold get_statistics in Hs. destruct log' as [|d0 l0] eqn:E; [done|].
    destruct (fold_left _ _ _) in Hs. by injection Hs. }
  split_and!.
  - rewrite Hf. subst log'. unfold log_format_decision, occurrences.
    rewrite filter_app, length_app. simpl.
    rewrite filter_cons, decide_True by done. simpl. lia.
  - rewrite length_drop. lia.
  - apply suffix_drop.
  - rewrite Hlen. subst log'. unfold log_format_decision.
    rewrite drop_app_le by lia. by rewrite last_snoc.
Qed.

(** ** Configuration from the environment *)

(** X27. With none of the four variables set, [configure_from_env] does not
    keep the configured values: it sets the mode to hybrid, [enabled] and
    [support_legacy] to true and [expose_internal_errors] to false, whatever
    they were, and leaves the other fields alone. *)
Theorem configure_from_env_unset (env : gmap string string)
    (cfg : ProblemDetailsConfig) :
  env !! "RFC7807_MODE" = None →
  env !! "RFC7807_ENABLED" = None →
  env !! "RFC7807_SUPPORT_LEGACY" = None →
  env !! "RFC7807_EXPOSE_INTERNAL" = None →
  configure_from_env env cfg
  = ({| mode := HYBRID; enabled := true; support_legacy := true;
        detect_legacy_clients := detect_legacy_clients cfg;
        legacy_format := legacy_format cfg;
        respect_accept_header := respect_accept_header cfg;
        default_format := default_format cfg;
        allowed_formats := allowed_formats cfg;
        cache_detection := cache_detection cfg;
        detection_cache_ttl := detection_cache_ttl cfg |},
     false).
Proof.
  intros H1 H2 H3 H4. unfold configure_from_env, env_flag.
  by rewrite H1, H2, H3, H4.
Qed.

Lemma configure_from_env_unset_witness :
  (∅ : gmap string string) !! "RFC7807_MODE" = None
  ∧ mode (ProblemDetailsConfig_default LEGACY_ONLY false) = LEGACY_ONLY
  ∧ configure_from_env ∅ (ProblemDetailsConfig_default LEGACY_ONLY false)
    = (ProblemDetailsConfig_default HYBRID true, false).
Proof.
  split; [reflexivity|]. split; [reflexivity|].
  exact (configure_from_env_unset ∅
           (ProblemDetailsConfig_default LEGACY_ONLY false)
           eq_refl eq_refl eq_refl eq_refl).
Defined.

(** X28. The value string of every rollout mode, as [to_dict] writes it, is
    understood in [RFC7807_MODE] and selects that mode: the lookup is by
    member name after upper-casing, and each name is its value in capitals.
    A value that names no mode keeps the mode that was configured. *)
Theorem configure_from_env_mode (env : gmap string string)
    (cfg : ProblemDetailsConfig) :
  (∀ m, env !! "RFC7807_MODE" = Some (RolloutMode_value m) →
        mode (configure_from_env env cfg).1 = m)
  ∧ (∀ v, env !! "RFC7807_MODE" = Some v →
          py_upper v ≫= RolloutMode_by_name = None →
          mode (configure_from_env env cfg).1 = mode cfg).
Proof.
  split.
  - intros m H. unfold configure_from_env. simpl. rewrite H. by destruct m.
  - intros v H Hv. unfold configure_from_env. simpl. rewrite H. simpl.
    by rewrite Hv.
Qed.
